(** * Family Safety Tracker front end: pairing, tracking and synchronisation

    A shallow embedding of the four screens that carry the pairing and
    telemetry logic of the application:

    - [PairDevice]    (app/parent/pair-device.tsx): the pairing code;
    - [Index]         (the set-up screen): [handleRegister];
    - [ChildTracking] (the child screen): permissions, the background task
      and the three domain syncs;
    - [ParentGallery] (the parent gallery): [getSortedMedia].

    Strings are sequences of ASCII characters, which covers every string
    the application builds itself (device identifiers, URLs, messages);
    [toUpperCase] is JavaScript's [String.prototype.toUpperCase] on that
    alphabet.  JSON numbers are rationals ([Q]): neither NaN nor an
    infinity can be written in JSON.  An [async] function is a computation
    in a state-and-exception monad over the part of the world the screen
    touches; [await] is sequencing. *)

From Stdlib Require Import Ascii QArith Lqa.
From stdpp Require Import gmap strings list pretty sorting.


(** ** JavaScript values and strings *)

Module JS.

(** [x || d] on a possibly absent string: the empty string is falsy. *)
Definition truthy_string (s : option string) : bool :=
  match s with
  | Some s => negb (String.eqb s "")
  | None => false
  end.

Definition or_string (s : option string) (d : string) : string :=
  match s with
  | Some s => if String.eqb s "" then d else s
  | None => d
  end.

(** A number is falsy exactly when it is absent or zero. *)
Definition truthy_number (x : option Q) : bool :=
  match x with
  | Some q => negb (Qeq_bool q 0)
  | None => false
  end.

Definition or_number (x : option Q) (d : Q) : Q :=
  match x with
  | Some q => if Qeq_bool q 0 then d else q
  | None => d
  end.

(** [s.slice(start)]: a negative [start] counts from the end of [s], and
    both ends are clamped to the string. *)
Definition slice (start : Z) (s : string) : string :=
  let len := Z.of_nat (String.length s) in
  let from :=
    if (start <? 0)%Z then Z.max (len + start) 0 else Z.min start len in
  String.substring (Z.to_nat from) (Z.to_nat (len - from)) s.

(** [s.substr(start, length)] for a start that is not negative. *)
Definition substr (start len : nat) (s : string) : string :=
  String.substring start len s.

Definition toUpperCase_char (c : ascii) : ascii :=
  let n := nat_of_ascii c in
  if (97 <=? n)%nat && (n <=? 122)%nat then ascii_of_nat (n - 32) else c.

Fixpoint toUpperCase (s : string) : string :=
  match s with
  | EmptyString => EmptyString
  | String c r => String (toUpperCase_char c) (toUpperCase r)
  end.

(** [trim]: white space is removed at both ends. *)
Definition is_space (c : ascii) : bool :=
  let n := nat_of_ascii c in
  (n =? 32)%nat || ((9 <=? n)%nat && (n <=? 13)%nat).

Fixpoint trimStart (s : string) : string :=
  match s with
  | EmptyString => EmptyString
  | String c r => if is_space c then trimStart r else s
  end.

Fixpoint trimEnd (s : string) : string :=
  match s with
  | EmptyString => EmptyString
  | String c r =>
      match trimEnd r with
      | EmptyString => if is_space c then EmptyString else String c EmptyString
      | r' => String c r'
      end
  end.

Definition trim (s : string) : string := trimEnd (trimStart s).

End JS.

(** ** The local key-value store *)

Abbreviation AsyncStorage := (gmap string string).

Definition getItem (key : string) (st : AsyncStorage) : option string :=
  st !! key.

Definition setItem (key value : string) (st : AsyncStorage) : AsyncStorage :=
  <[key := value]> st.

(** ** Device identifiers *)

(** [`device_${Date.now()}_${Math.random().toString(36).substr(2, 9)}`]:
    [now] is the clock reading in milliseconds and [rnd] the base-36
    rendering of the random number. *)
Definition newDeviceId (now : N) (rnd : string) : string :=
  "device_" +:+ pretty now +:+ "_" +:+ JS.substr 2 9 rnd.

(** The identifiers this application creates. *)
Definition isDeviceId (d : string) : Prop :=
  ∃ now rnd, d = newDeviceId now rnd.

(** ** Effects

    What a screen does to the outside is recorded, oldest first, in a trace
    of events: calls into an operating-system capability, HTTP requests,
    alerts, console output and navigation.  The key-value store and the
    task registry are state; reading them leaves no event. *)

Inductive PermissionStatus := granted | denied | undetermined.

Definition isGranted (s : PermissionStatus) : bool :=
  match s with granted => true | _ => false end.

Inductive Mode := parent | child.

Definition modeString (m : Mode) : string :=
  match m with parent => "parent" | child => "child" end.

Record Coords := {
  latitude : Q;
  longitude : Q;
  accuracy : option Q;
  speed : option Q;
  heading : option Q;
}.

Record LocationObject := { coords : Coords }.

Record PhoneNumber := { number : option string }.
Record Email := { email : option string }.

(** A contact as the contacts provider returns it. *)
Record Contact := {
  contact_id : string;
  contact_name : option string;
  contact_phoneNumbers : option (list PhoneNumber);
  contact_emails : option (list Email);
}.

(** A contact as it is uploaded. *)
Record ContactRecord := {
  id : string;
  name : string;
  phoneNumbers : list string;
  emails : list string;
}.

Record GeoTag := { geo_latitude : Q; geo_longitude : Q }.

(** An asset of the media library. *)
Record Asset := {
  asset_id : string;
  asset_filename : string;
  asset_mediaType : string;
  asset_creationTime : Q;
  asset_modificationTime : Q;
  asset_width : Q;
  asset_height : Q;
  asset_duration : Q;
  asset_location : option GeoTag;
}.

Record MediaRecord := {
  media_id : string;
  filename : string;
  mediaType : string;
  creationTime : Q;
  modificationTime : Q;
  width : Q;
  height : Q;
  duration : Q;
  location : option GeoTag;
}.

Record RegisterBody := {
  reg_device_id : string;
  reg_device_name : string;
  reg_mode : Mode;
  reg_parent_device_id : option string;
}.

Inductive Body :=
  | ContactsBatch (device_id : string) (contacts : list ContactRecord)
  | MediaBatch (device_id : string) (media_items : list MediaRecord)
  | LocationSample (device_id : string) (c : Coords)
  | Register (b : RegisterBody).

Inductive Capability :=
  | Location_requestForegroundPermissions
  | Location_requestBackgroundPermissions
  | Contacts_requestPermissions
  | MediaLibrary_requestPermissions
  | Contacts_getPermissions
  | Contacts_getContacts
  | MediaLibrary_getPermissions
  | MediaLibrary_getAssets
  | Location_getCurrentPosition
  | Location_startLocationUpdates (task : string)
  | Location_stopLocationUpdates (task : string).

Inductive Event :=
  | OsCall (c : Capability)
  | HttpPost (url : string) (body : Body)
  | AlertShown (title message : string)
  | ConsoleLog (message : string) (value : option nat)
  | ConsoleError (message error : string)
  | RouterReplace (path : string).

(** The world of a screen whose component state has type [UI]. *)
Record World (UI : Type) := mkWorld {
  storage : AsyncStorage;
  tasks : gset string;
  trace : list Event;
  ui : UI;
}.
Arguments mkWorld {UI}.
Arguments storage {UI}.
Arguments tasks {UI}.
Arguments trace {UI}.
Arguments ui {UI}.

(** A promise settles: it is resolved with a value or rejected with an
    error. *)
Inductive Outcome (A : Type) :=
  | Resolved (a : A)
  | Rejected (error : string).
Arguments Resolved {A}.
Arguments Rejected {A}.

Definition Async (UI A : Type) : Type := World UI → Outcome A * World UI.

Section Monad.
Context {UI : Type}.

Definition ret {A} (a : A) : Async UI A := λ w, (Resolved a, w).

Definition bind {A B} (c : Async UI A) (k : A → Async UI B) : Async UI B :=
  λ w, match c w with
       | (Resolved a, w') => k a w'
       | (Rejected e, w') => (Rejected e, w')
       end.

Definition throw {A} (e : string) : Async UI A := λ w, (Rejected e, w).

(** [try { body } catch (error) { handler }] *)
Definition try_catch {A} (body : Async UI A) (handler : string → Async UI A)
  : Async UI A :=
  λ w, match body w with
       | (Resolved a, w') => (Resolved a, w')
       | (Rejected e, w') => handler e w'
       end.

(** [try { body } finally { final }] *)
Definition try_finally {A} (body : Async UI A) (final : Async UI unit)
  : Async UI A :=
  λ w, let '(r, w') := body w in
       match final w' with
       | (Resolved _, w'') => (r, w'')
       | (Rejected e, w'') => (Rejected e, w'')
       end.

Definition emit (e : Event) : Async UI unit :=
  λ w, (Resolved tt, mkWorld (storage w) (tasks w) (trace w ++ [e]) (ui w)).

(** A call into a capability, settled by the environment's [answer]. *)
Definition call {A} (c : Capability) (answer : Outcome A) : Async UI A :=
  λ w, (answer, mkWorld (storage w) (tasks w) (trace w ++ [OsCall c]) (ui w)).

(** An HTTP request, settled by the environment's [answer]. *)
Definition post {A} (url : string) (body : Body) (answer : Outcome A)
  : Async UI A :=
  λ w, (answer,
        mkWorld (storage w) (tasks w) (trace w ++ [HttpPost url body]) (ui w)).

Definition AsyncStorage_getItem (key : string) : Async UI (option string) :=
  λ w, (Resolved (getItem key (storage w)), w).

Definition AsyncStorage_setItem (key value : string) : Async UI unit :=
  λ w, (Resolved tt,
        mkWorld (setItem key value (storage w)) (tasks w) (trace w) (ui w)).

Definition TaskManager_isTaskRegisteredAsync (task : string) : Async UI bool :=
  λ w, (Resolved (bool_decide (task ∈ tasks w)), w).

Definition setState (f : UI → UI) : Async UI unit :=
  λ w, (Resolved tt, mkWorld (storage w) (tasks w) (trace w) (f (ui w))).

Definition getState : Async UI UI := λ w, (Resolved (ui w), w).

Definition Alert_alert (title message : string) : Async UI unit :=
  emit (AlertShown title message).

Definition console_log (message : string) (value : option nat) : Async UI unit :=
  emit (ConsoleLog message value).

Definition console_error (message error : string) : Async UI unit :=
  emit (ConsoleError message error).

Definition router_replace (path : string) : Async UI unit :=
  emit (RouterReplace path).

End Monad.

Notation "x <- c ;; k" := (bind c (λ x, k))
  (at level 100, c at next level, right associativity).
Notation "c ;; k" := (bind c (λ _, k))
  (at level 100, right associativity).

(** The events a computation adds to the trace of [w]. *)
Definition added {UI A} (c : Async UI A) (w : World UI) : list Event :=
  drop (length (trace w)) (trace (c w).2).

(** The requests, alerts and console errors among events. *)
Definition posts (t : list Event) : list (string * Body) :=
  omap (λ e, match e with HttpPost u b => Some (u, b) | _ => None end) t.

Definition alerts (t : list Event) : list (string * string) :=
  omap (λ e, match e with AlertShown a b => Some (a, b) | _ => None end) t.

Definition errors (t : list Event) : list (string * string) :=
  omap (λ e, match e with ConsoleError a b => Some (a, b) | _ => None end) t.

(** ** The pairing screen *)

Module PairDevice.

Record State := mkState {
  pairingCode : string;
  deviceId : string;
}.

(** The derivation itself: [id ? id.slice(-6).toUpperCase() : '000000']. *)
Definition derive (id : option string) : string :=
  if JS.truthy_string id
  then JS.toUpperCase (JS.slice (-6) (default "" id))
  else "000000".

Definition generatePairingCode (storage : AsyncStorage) (st : State) : State :=
  let id := getItem "device_id" storage in
  let st := {| pairingCode := pairingCode st; deviceId := JS.or_string id "" |} in
  let code := derive id in
  {| pairingCode := code; deviceId := deviceId st |}.

End PairDevice.

(** ** The child screen: tracking and synchronisation *)

Module ChildTracking.

Definition LOCATION_TASK_NAME : string := "background-location-task".

Record State := mkState {
  deviceName : string;
  locationEnabled : bool;
  lastSync : option N;
  isTracking : bool;
}.

Definition setLocationEnabled (b : bool) : Async State unit :=
  setState (λ st, mkState (deviceName st) b (lastSync st) (isTracking st)).

Definition setLastSync (t : N) : Async State unit :=
  setState (λ st, mkState (deviceName st) (locationEnabled st) (Some t) (isTracking st)).

Definition setIsTracking (b : bool) : Async State unit :=
  setState (λ st, mkState (deviceName st) (locationEnabled st) (lastSync st) b).

(** How the collaborators of the screen answer: the permission prompts
    and queries, the data providers, the task scheduler, the backend and
    the clock. *)
Record Env := {
  BACKEND_URL : string;
  Location_requestForegroundPermissionsAsync : Outcome PermissionStatus;
  Location_requestBackgroundPermissionsAsync : Outcome PermissionStatus;
  Contacts_requestPermissionsAsync : Outcome PermissionStatus;
  MediaLibrary_requestPermissionsAsync : Outcome PermissionStatus;
  Contacts_getPermissionsAsync : Outcome PermissionStatus;
  Contacts_getContactsAsync : Outcome (list Contact);
  MediaLibrary_getPermissionsAsync : Outcome PermissionStatus;
  MediaLibrary_getAssetsAsync : Outcome (list Asset);
  Location_getCurrentPositionAsync : Outcome LocationObject;
  Location_startLocationUpdatesAsync : Outcome unit;
  Location_stopLocationUpdatesAsync : Outcome unit;
  axios_post : string → Body → Outcome unit;
  Date_now : N;
}.

(** Registering a task that is registered already changes nothing. *)
Definition startLocationUpdatesAsync (env : Env) (task : string)
  : Async State unit :=
  λ w, match Location_startLocationUpdatesAsync env with
       | Resolved _ =>
           (Resolved tt,
            mkWorld (storage w) ({[task]} ∪ tasks w)
              (trace w ++ [OsCall (Location_startLocationUpdates task)]) (ui w))
       | Rejected e =>
           (Rejected e,
            mkWorld (storage w) (tasks w)
              (trace w ++ [OsCall (Location_startLocationUpdates task)]) (ui w))
       end.

Definition stopLocationUpdatesAsync (env : Env) (task : string)
  : Async State unit :=
  λ w, match Location_stopLocationUpdatesAsync env with
       | Resolved _ =>
           (Resolved tt,
            mkWorld (storage w) (tasks w ∖ {[task]})
              (trace w ++ [OsCall (Location_stopLocationUpdates task)]) (ui w))
       | Rejected e =>
           (Rejected e,
            mkWorld (storage w) (tasks w)
              (trace w ++ [OsCall (Location_stopLocationUpdates task)]) (ui w))
       end.

Section Screen.
Variable env : Env.

Definition checkTrackingStatus : Async State unit :=
  isRegistered <- TaskManager_isTaskRegisteredAsync LOCATION_TASK_NAME ;;
  setIsTracking isRegistered.

Definition requestPermissions : Async State bool :=
  try_catch
    (locationStatus <- call Location_requestForegroundPermissions
                         (Location_requestForegroundPermissionsAsync env) ;;
     if negb (isGranted locationStatus) then
       Alert_alert "Permission Denied"
         "Location permission is required for tracking." ;;
       ret false
     else
       backgroundStatus <- call Location_requestBackgroundPermissions
                             (Location_requestBackgroundPermissionsAsync env) ;;
       if negb (isGranted backgroundStatus) then
         Alert_alert "Background Permission"
           "Background location permission is required for continuous tracking." ;;
         ret false
       else
         contactsStatus <- call Contacts_requestPermissions
                             (Contacts_requestPermissionsAsync env) ;;
         (if negb (isGranted contactsStatus)
          then Alert_alert "Permission Denied" "Contacts permission is required."
          else ret tt) ;;
         mediaStatus <- call MediaLibrary_requestPermissions
                          (MediaLibrary_requestPermissionsAsync env) ;;
         (if negb (isGranted mediaStatus)
          then Alert_alert "Permission Denied" "Media library permission is required."
          else ret tt) ;;
         setLocationEnabled true ;;
         ret true)
    (λ error,
       console_error "Error requesting permissions:" error ;;
       ret false).

Definition toContactRecord (contact : Contact) : ContactRecord :=
  {| id := contact_id contact;
     name := JS.or_string (contact_name contact) "Unknown";
     phoneNumbers :=
       match contact_phoneNumbers contact with
       | Some ps => map (λ p, JS.or_string (number p) "") ps
       | None => []
       end;
     emails :=
       match contact_emails contact with
       | Some es => map (λ e, JS.or_string (email e) "") es
       | None => []
       end |}.

Definition syncContacts (deviceId : string) : Async State unit :=
  try_catch
    (status <- call Contacts_getPermissions (Contacts_getPermissionsAsync env) ;;
     if negb (isGranted status) then ret tt
     else
       data <- call Contacts_getContacts (Contacts_getContactsAsync env) ;;
       let contacts := map toContactRecord data in
       let url := BACKEND_URL env +:+ "/api/contacts/batch" in
       let body := ContactsBatch deviceId contacts in
       post url body (axios_post env url body) ;;
       console_log "Contacts synced:" (Some (length contacts)))
    (λ error, console_error "Error syncing contacts:" error).

Definition toMediaRecord (asset : Asset) : MediaRecord :=
  {| media_id := asset_id asset;
     filename := asset_filename asset;
     mediaType := asset_mediaType asset;
     creationTime := asset_creationTime asset;
     modificationTime := asset_modificationTime asset;
     width := asset_width asset;
     height := asset_height asset;
     duration := asset_duration asset;
     location :=
       match asset_location asset with
       | Some l => Some {| geo_latitude := geo_latitude l;
                           geo_longitude := geo_longitude l |}
       | None => None
       end |}.

Definition syncGalleryMetadata (deviceId : string) : Async State unit :=
  try_catch
    (status <- call MediaLibrary_getPermissions
                 (MediaLibrary_getPermissionsAsync env) ;;
     if negb (isGranted status) then ret tt
     else
       assets <- call MediaLibrary_getAssets (MediaLibrary_getAssetsAsync env) ;;
       let mediaItems := map toMediaRecord assets in
       let url := BACKEND_URL env +:+ "/api/media/batch" in
       let body := MediaBatch deviceId mediaItems in
       post url body (axios_post env url body) ;;
       console_log "Media metadata synced:" (Some (length mediaItems)))
    (λ error, console_error "Error syncing gallery metadata:" error).

Definition syncCurrentLocation (deviceId : string) : Async State unit :=
  try_catch
    (location <- call Location_getCurrentPosition
                   (Location_getCurrentPositionAsync env) ;;
     let url := BACKEND_URL env +:+ "/api/locations" in
     let body := LocationSample deviceId (coords location) in
     post url body (axios_post env url body) ;;
     console_log "Location synced" None)
    (λ error, console_error "Error syncing location:" error).

Definition syncAllData : Async State unit :=
  try_catch
    (deviceId <- AsyncStorage_getItem "device_id" ;;
     if negb (JS.truthy_string deviceId) then ret tt
     else
       let deviceId := default "" deviceId in
       syncContacts deviceId ;;
       syncGalleryMetadata deviceId ;;
       syncCurrentLocation deviceId ;;
       setLastSync (Date_now env) ;;
       Alert_alert "Success" "All data synced successfully!")
    (λ error,
       console_error "Error syncing data:" error ;;
       Alert_alert "Error" "Failed to sync some data. Please try again.").

Definition startTracking : Async State unit :=
  hasPermissions <- requestPermissions ;;
  if negb hasPermissions then ret tt
  else
    try_catch
      (startLocationUpdatesAsync env LOCATION_TASK_NAME ;;
       setIsTracking true ;;
       Alert_alert "Tracking Started"
         "Location tracking is now active in the background." ;;
       syncAllData)
      (λ error,
         console_error "Error starting tracking:" error ;;
         Alert_alert "Error" "Failed to start location tracking.").

Definition stopTracking : Async State unit :=
  try_catch
    (isRegistered <- TaskManager_isTaskRegisteredAsync LOCATION_TASK_NAME ;;
     (if isRegistered
      then stopLocationUpdatesAsync env LOCATION_TASK_NAME
      else ret tt) ;;
     setIsTracking false ;;
     Alert_alert "Tracking Stopped" "Location tracking has been stopped.")
    (λ error, console_error "Error stopping tracking:" error).

(** What the scheduler hands to the background task. *)
Record TaskBody := {
  data : option (list LocationObject);
  error : option string;
}.

(** The handler given to [TaskManager.defineTask]; it runs outside the
    component, so it touches no component state. *)
Definition backgroundLocationTask (body : TaskBody) : Async State unit :=
  match error body with
  | Some e => console_error "Background location error:" e
  | None =>
      match data body with
      | None => ret tt
      | Some locations =>
          let location := locations !! 0%nat in
          try_catch
            (deviceId <- AsyncStorage_getItem "device_id" ;;
             if negb (JS.truthy_string deviceId) then ret tt
             else
               let deviceId := default "" deviceId in
               match location with
               | None =>
                   throw "TypeError: Cannot read property 'coords' of undefined"
               | Some location =>
                   let url := BACKEND_URL env +:+ "/api/locations" in
                   let body := LocationSample deviceId (coords location) in
                   post url body (axios_post env url body) ;;
                   console_log "Background location update sent" None
               end)
            (λ error, console_error "Error sending background location:" error)
      end
  end.

End Screen.

(** The endpoints of the three batches. *)
Definition contactsUrl (env : Env) : string :=
  BACKEND_URL env +:+ "/api/contacts/batch".
Definition mediaUrl (env : Env) : string :=
  BACKEND_URL env +:+ "/api/media/batch".
Definition locationUrl (env : Env) : string :=
  BACKEND_URL env +:+ "/api/locations".

(** The sync domains, and the domain an event belongs to. *)
Inductive Domain := Contacts | Media | Location.

Definition messageDomain (m : string) : option Domain :=
  if String.eqb m "Contacts synced:" || String.eqb m "Error syncing contacts:"
  then Some Contacts
  else if String.eqb m "Media metadata synced:"
          || String.eqb m "Error syncing gallery metadata:"
  then Some Media
  else if String.eqb m "Location synced" || String.eqb m "Error syncing location:"
  then Some Location
  else None.

Definition eventDomain (e : Event) : option Domain :=
  match e with
  | OsCall Contacts_getPermissions | OsCall Contacts_getContacts => Some Contacts
  | OsCall MediaLibrary_getPermissions | OsCall MediaLibrary_getAssets => Some Media
  | OsCall Location_getCurrentPosition => Some Location
  | HttpPost _ (ContactsBatch _ _) => Some Contacts
  | HttpPost _ (MediaBatch _ _) => Some Media
  | HttpPost _ (LocationSample _ _) => Some Location
  | ConsoleLog m _ | ConsoleError m _ => messageDomain m
  | _ => None
  end.

(** The place of an event in a pass: the domains in the order in which
    they are written, then whatever follows them. *)
Definition stage (e : Event) : nat :=
  match eventDomain e with
  | Some Contacts => 0
  | Some Media => 1
  | Some Location => 2
  | None => 3
  end.

(** The world [w] after the events [evs]. *)
Definition extend (w : World State) (evs : list Event) : World State :=
  mkWorld (storage w) (tasks w) (trace w ++ evs) (ui w).

(** The events of a computation that runs alone, in a fresh world. *)
Definition freshWorld : World State :=
  mkWorld ∅ ∅ [] (mkState "" false None false).

Definition eventsOf {A} (c : Async State A) : list Event :=
  trace (c freshWorld).2.

(** The world after a pass that found the identifier [d]. *)
Definition synced (env : Env) (d : string) (w : World State) : World State :=
  mkWorld (storage w) (tasks w)
    (trace w ++ eventsOf (syncContacts env d)
       ++ eventsOf (syncGalleryMetadata env d)
       ++ eventsOf (syncCurrentLocation env d)
       ++ [AlertShown "Success" "All data synced successfully!"])
    (mkState (deviceName (ui w)) (locationEnabled (ui w))
       (Some (Date_now env)) (isTracking (ui w))).

(** The result the specification gives to a synchronisation pass. *)
Inductive SyncResult := Ok | PartialFailure (failed : list Domain).

End ChildTracking.

(** ** The set-up screen: registration *)

Module Index.

Record State := mkState {
  deviceName : string;
  parentDeviceId : string;
  selectedMode : option Mode;
  loading : bool;
  registering : bool;
}.

Definition setRegistering (b : bool) : Async State unit :=
  setState (λ st, mkState (deviceName st) (parentDeviceId st) (selectedMode st)
                    (loading st) b).

(** The backend, the clock and the random source.  [fetch] resolves with
    [response.ok] or rejects; [Math_random] is the base-36 rendering of
    the random number drawn. *)
Record Env := {
  BACKEND_URL : string;
  fetch : string → Body → Outcome bool;
  Date_now : N;
  Math_random : string;
}.

Definition isChild (m : Mode) : bool :=
  match m with child => true | parent => false end.

Definition handleRegister (env : Env) : Async State unit :=
  st <- getState ;;
  match selectedMode st with
  | None => Alert_alert "Error" "Please select Parent or Child mode"
  | Some mode =>
      if negb (JS.truthy_string (Some (JS.trim (deviceName st)))) then
        Alert_alert "Error" "Please enter a device name"
      else if isChild mode
              && negb (JS.truthy_string (Some (JS.trim (parentDeviceId st)))) then
        Alert_alert "Error" "Please enter Parent Device ID to connect"
      else
        setRegistering true ;;
        try_finally
          (try_catch
             (stored <- AsyncStorage_getItem "device_id" ;;
              deviceId <-
                (if negb (JS.truthy_string stored) then
                   let deviceId := newDeviceId (Date_now env) (Math_random env) in
                   AsyncStorage_setItem "device_id" deviceId ;;
                   ret deviceId
                 else ret (default "" stored)) ;;
              let url := BACKEND_URL env +:+ "/api/devices/register" in
              let body :=
                Register
                  {| reg_device_id := deviceId;
                     reg_device_name := deviceName st;
                     reg_mode := mode;
                     reg_parent_device_id :=
                       if isChild mode then Some (JS.trim (parentDeviceId st))
                       else None |} in
              ok <- post url body (fetch env url body) ;;
              (if negb ok then throw "Failed to register device" else ret tt) ;;
              AsyncStorage_setItem "device_mode" (modeString mode) ;;
              AsyncStorage_setItem "device_name" (deviceName st) ;;
              (if isChild mode
               then AsyncStorage_setItem "parent_device_id"
                      (JS.trim (parentDeviceId st))
               else ret tt) ;;
              (if isChild mode
               then router_replace "/child/tracking"
               else router_replace "/parent/dashboard"))
             (λ error,
                console_error "Registration error:" error ;;
                Alert_alert "Error"
                  "Failed to register device. Please check the Parent Device ID and try again."))
          (setRegistering false)
  end.

(** The identifier a registration uses: the stored one, or a new one. *)
Definition registrationId (env : Env) (st : AsyncStorage) : string :=
  let stored := getItem "device_id" st in
  if JS.truthy_string stored then default "" stored
  else newDeviceId (Date_now env) (Math_random env).

(** The request a registration sends. *)
Definition registration (env : Env) (w : World State) (mode : Mode) : Body :=
  Register
    {| reg_device_id := registrationId env (storage w);
       reg_device_name := deviceName (ui w);
       reg_mode := mode;
       reg_parent_device_id :=
         if isChild mode then Some (JS.trim (parentDeviceId (ui w))) else None |}.

Definition registerUrl (env : Env) : string :=
  BACKEND_URL env +:+ "/api/devices/register".

End Index.

(** ** The parent gallery *)

Module ParentGallery.

Record MediaItem := {
  media_id : string;
  filename : string;
  media_type : string;
  creation_time : option Q;
  width : option Q;
  height : option Q;
  duration : option Q;
  location_latitude : option Q;
  location_longitude : option Q;
}.

Inductive SortBy := date | location.

Record State := {
  media : list MediaItem;
  sortBy : SortBy;
}.

(** [a && b] on possibly absent numbers. *)
Definition and_number (a b : option Q) : option Q :=
  if JS.truthy_number a then b else a.

(** [Array.prototype.sort] with a comparison function: a stable sort in
    which [a] goes before [b] unless [compareFn a b] is positive. *)
Fixpoint sort_insert {A} (compareFn : A → A → Q) (x : A) (l : list A) : list A :=
  match l with
  | [] => [x]
  | y :: l' =>
      if Qle_bool (compareFn x y) 0 then x :: y :: l'
      else y :: sort_insert compareFn x l'
  end.

Definition Array_sort {A} (compareFn : A → A → Q) (l : list A) : list A :=
  foldr (sort_insert compareFn) [] l.

Definition getSortedMedia (st : State) : list MediaItem :=
  match sortBy st with
  | date =>
      Array_sort
        (λ a b,
           let timeA := JS.or_number (creation_time a) 0 in
           let timeB := JS.or_number (creation_time b) 0 in
           timeB - timeA)%Q
        (media st)
  | location =>
      List.filter
        (λ item,
           JS.truthy_number
             (and_number (location_latitude item) (location_longitude item)))
        (media st)
  end.

(** [a] may stand before [b] when its key is not the smaller one. *)
Definition before {A} (key : A → Q) (a b : A) : Prop := (key b <= key a)%Q.

(** The time an item is sorted by: a missing creation time counts as 0. *)
Definition timeOf (item : MediaItem) : Q := default 0%Q (creation_time item).

(** An item with both coordinates present and different from zero. *)
Definition geotagged (item : MediaItem) : Prop :=
  ∃ lat lng,
    location_latitude item = Some lat ∧ location_longitude item = Some lng
    ∧ ¬ (lat == 0)%Q ∧ ¬ (lng == 0)%Q.

End ParentGallery.

(** ** Sample devices and environments *)

Module Sample.
Import ChildTracking.

Definition deviceId : string := "device_1700000000_abc123xyz".

Definition alice : Contact :=
  {| contact_id := "c1";
     contact_name := Some "Alice";
     contact_phoneNumbers :=
       Some [ {| number := Some "555-0100" |}; {| number := None |} ];
     contact_emails := Some [ {| email := Some "alice@example.org" |} ] |}.

Definition nameless : Contact :=
  {| contact_id := "c2";
     contact_name := None;
     contact_phoneNumbers := Some [ {| number := Some "555-0101" |} ];
     contact_emails := None |}.

Definition bob : Contact :=
  {| contact_id := "c3";
     contact_name := Some "Bob";
     contact_phoneNumbers := None;
     contact_emails :=
       Some [ {| email := Some "bob@example.org" |}; {| email := Some "b@example.org" |} ] |}.

Definition holiday : Asset :=
  {| asset_id := "a1";
     asset_filename := "IMG_0001.jpg";
     asset_mediaType := "photo";
     asset_creationTime := 1700000000000;
     asset_modificationTime := 1700000000500;
     asset_width := 4032;
     asset_height := 3024;
     asset_duration := 0;
     asset_location := Some {| geo_latitude := 48 # 1; geo_longitude := 2 # 1 |} |}.

Definition position : LocationObject :=
  {| coords := {| latitude := 515 # 10; longitude := -(1 # 10);
                  accuracy := Some 5%Q; speed := None; heading := None |} |}.

(** Every request succeeds. *)
Definition backendUp : string → Body → Outcome unit :=
  λ _ _, Resolved tt.

(** The contacts batch is refused, every other request succeeds. *)
Definition contactsDown : string → Body → Outcome unit :=
  λ _ body,
    match body with
    | ContactsBatch _ _ => Rejected "Network Error"
    | _ => Resolved tt
    end.

Definition env (foreground background contactsPermission mediaPermission
                  : PermissionStatus)
    (start : Outcome unit) (backend : string → Body → Outcome unit) : Env :=
  {| BACKEND_URL := "https://backend.example";
     Location_requestForegroundPermissionsAsync := Resolved foreground;
     Location_requestBackgroundPermissionsAsync := Resolved background;
     Contacts_requestPermissionsAsync := Resolved contactsPermission;
     MediaLibrary_requestPermissionsAsync := Resolved mediaPermission;
     Contacts_getPermissionsAsync := Resolved contactsPermission;
     Contacts_getContactsAsync := Resolved [alice; nameless; bob];
     MediaLibrary_getPermissionsAsync := Resolved mediaPermission;
     MediaLibrary_getAssetsAsync := Resolved [holiday];
     Location_getCurrentPositionAsync := Resolved position;
     Location_startLocationUpdatesAsync := start;
     Location_stopLocationUpdatesAsync := Resolved tt;
     axios_post := backend;
     Date_now := 1700000360000 |}.

Definition allGranted (backend : string → Body → Outcome unit) : Env :=
  env granted granted granted granted (Resolved tt) backend.

(** A child device that has been set up, and one that has not. *)
Definition paired : World State :=
  mkWorld {[ "device_id" := deviceId ]} ∅ [] (mkState "Pixel" false None false).

Definition unpaired : World State :=
  mkWorld ∅ ∅ [] (mkState "This Device" false None false).

(** The set-up screen of a fresh installation on which child mode, a
    name and a parent identifier have been entered. *)
Definition setup : World Index.State :=
  mkWorld ∅ ∅ []
    (Index.mkState "Pixel" " device_1600000000_parent001 " (Some child) false false).

(** A backend that refuses every registration, and one that accepts. *)
Definition refusing : Index.Env :=
  {| Index.BACKEND_URL := "https://backend.example";
     Index.fetch := λ _ _, Resolved false;
     Index.Date_now := 1700000000;
     Index.Math_random := "0.abc123xyz" |}.

Definition accepting : Index.Env :=
  {| Index.BACKEND_URL := "https://backend.example";
     Index.fetch := λ _ _, Resolved true;
     Index.Date_now := 1700000999;
     Index.Math_random := "0.zzz999" |}.

(** Three items of a gallery: one taken on the equator, one without a
    creation time, one with both. *)
Definition photo (name : string) (time lat lng : option Q)
  : ParentGallery.MediaItem :=
  {| ParentGallery.media_id := name;
     ParentGallery.filename := name +:+ ".jpg";
     ParentGallery.media_type := "photo";
     ParentGallery.creation_time := time;
     ParentGallery.width := None;
     ParentGallery.height := None;
     ParentGallery.duration := None;
     ParentGallery.location_latitude := lat;
     ParentGallery.location_longitude := lng |}.

Definition equator := photo "equator" (Some 300%Q) (Some 0%Q) (Some (365 # 10)).
Definition undated := photo "undated" None (Some (48 # 1)) (Some (2 # 1)).
Definition paris := photo "paris" (Some 200%Q) (Some (4885 # 100)) (Some (235 # 100)).
Definition plain := photo "plain" (Some 500%Q) None None.

End Sample.

(** The capabilities called among events. *)
Definition calls (t : list Event) : list Capability :=
  omap (λ e, match e with OsCall c => Some c | _ => None end) t.

(** ** Leaving the child screen *)


Module ChildSession.
Import ChildTracking.

Definition setDeviceName (name : string) : Async State unit :=
  setState (λ st, mkState name (locationEnabled st) (lastSync st) (isTracking st)).

Definition loadDeviceInfo : Async State unit :=
  name <- AsyncStorage_getItem "device_name" ;;
  setDeviceName (JS.or_string name "This Device").



End ChildSession.

(** ** The set-up screen at launch *)

Module Launch.
Import Index.

Definition setLoading (b : bool) : Async State unit :=
  setState (λ st, mkState (deviceName st) (parentDeviceId st) (selectedMode st)
                    b (registering st)).

Definition checkExistingSetup : Async State unit :=
  try_finally
    (try_catch
       (mode <- AsyncStorage_getItem "device_mode" ;;
        deviceId <- AsyncStorage_getItem "device_id" ;;
        if JS.truthy_string mode && JS.truthy_string deviceId then
          if String.eqb (default "" mode) "parent"
          then router_replace "/parent/dashboard"
          else router_replace "/child/tracking"
        else ret tt)
       (λ error, console_error "Error checking setup:" error))
    (setLoading false).

End Launch.

(** ** JavaScript arrays *)

Module JSArray.

(** A relative index of [slice], clamped to the array. *)
Definition clamp (len i : Z) : Z :=
  if (i <? 0)%Z then Z.max (len + i) 0 else Z.min i len.

(** [l.slice(start, end)] *)
Definition slice {A} (start end_ : Z) (l : list A) : list A :=
  let len := Z.of_nat (length l) in
  let from := clamp len start in
  let to := clamp len end_ in
  take (Z.to_nat (to - from)) (drop (Z.to_nat from) l).

End JSArray.

(** ** The parent screens: reading from the backend

    A GET request is recorded, oldest first, beside the state of the
    screen.  A handler belongs to the render that created it: what it reads
    of the component state is the state of that render, given to it as
    [render]; what it sets goes to the current state. *)

Record Browsing (S : Type) := mkBrowsing {
  screen : S;
  fetched : list string;
}.
Arguments mkBrowsing {S}.
Arguments screen {S}.
Arguments fetched {S}.

Definition axios_get {S A} (url : string) (answer : Outcome A)
  : Async (Browsing S) A :=
  λ w, (answer,
        mkWorld (storage w) (tasks w) (trace w)
          (mkBrowsing (screen (ui w)) (fetched (ui w) ++ [url]))).

Definition setScreen {S} (f : S → S) : Async (Browsing S) unit :=
  setState (λ b, mkBrowsing (f (screen b)) (fetched b)).

Record ChildDevice := {
  device_id : string;
  device_name : string;
}.

Definition childrenUrl (backend deviceId : string) : string :=
  backend +:+ "/api/devices/parent/" +:+ deviceId +:+ "/children".

Module GalleryData.

Record State := mkState {
  children : list ChildDevice;
  selectedChild : option ChildDevice;
  media : list ParentGallery.MediaItem;
  refreshing : bool;
  loading : bool;
  sortBy : ParentGallery.SortBy;
}.

Definition setChildren (cs : list ChildDevice) :=
  setScreen (λ st, mkState cs (selectedChild st) (media st) (refreshing st)
                     (loading st) (sortBy st)).
Definition setSelectedChild (c : option ChildDevice) :=
  setScreen (λ st, mkState (children st) c (media st) (refreshing st)
                     (loading st) (sortBy st)).
Definition setMedia (m : list ParentGallery.MediaItem) :=
  setScreen (λ st, mkState (children st) (selectedChild st) m (refreshing st)
                     (loading st) (sortBy st)).
Definition setRefreshing (b : bool) :=
  setScreen (λ st, mkState (children st) (selectedChild st) (media st) b
                     (loading st) (sortBy st)).
Definition setLoading (b : bool) :=
  setScreen (λ st, mkState (children st) (selectedChild st) (media st)
                     (refreshing st) b (sortBy st)).

(** The backend, as the gallery reads it: each answer is the [data] of the
    response, or the request fails. *)
Record Env := {
  BACKEND_URL : string;
  getChildren : string → Outcome (list ChildDevice);
  getMedia : string → Outcome (list ParentGallery.MediaItem);
}.

Definition mediaUrl (env : Env) (childDeviceId : string) : string :=
  BACKEND_URL env +:+ "/api/media/" +:+ childDeviceId.

Definition loadData (env : Env) (render : State) : Async (Browsing State) unit :=
  try_finally
    (try_catch
       (deviceId <- AsyncStorage_getItem "device_id" ;;
        if negb (JS.truthy_string deviceId) then ret tt
        else
          let url := childrenUrl (BACKEND_URL env) (default "" deviceId) in
          data <- axios_get url (getChildren env url) ;;
          setChildren data ;;
          if (0 <? length data)%nat && negb (bool_decide (is_Some (selectedChild render)))
          then setSelectedChild (data !! 0%nat)
          else ret tt)
       (λ error, console_error "Error loading data:" error))
    (setLoading false).

Definition loadMedia (env : Env) (childDeviceId : string)
  : Async (Browsing State) unit :=
  try_catch
    (let url := mediaUrl env childDeviceId in
     data <- axios_get url (getMedia env url) ;;
     setMedia data)
    (λ error, console_error "Error loading media:" error).

Definition onRefresh (env : Env) (render : State) : Async (Browsing State) unit :=
  setRefreshing true ;;
  loadData env render ;;
  (match selectedChild render with
   | Some c => loadMedia env (device_id c)
   | None => ret tt
   end) ;;
  setRefreshing false.

(** What the list of the gallery shows. *)
Definition sortedMedia (st : State) : list ParentGallery.MediaItem :=
  ParentGallery.getSortedMedia
    {| ParentGallery.media := media st; ParentGallery.sortBy := sortBy st |}.

End GalleryData.

Module ParentDashboard.

Record LocationData := {
  latitude : Q;
  longitude : Q;
  timestamp : string;
  accuracy : option Q;
  speed : option Q;
}.

Record State := mkState {
  children : list ChildDevice;
  selectedChild : option ChildDevice;
  currentLocation : option LocationData;
  locationHistory : list LocationData;
  refreshing : bool;
  loading : bool;
}.

Definition setChildren (cs : list ChildDevice) :=
  setScreen (λ st, mkState cs (selectedChild st) (currentLocation st)
                     (locationHistory st) (refreshing st) (loading st)).
Definition setSelectedChild (c : option ChildDevice) :=
  setScreen (λ st, mkState (children st) c (currentLocation st)
                     (locationHistory st) (refreshing st) (loading st)).
Definition setCurrentLocation (l : option LocationData) :=
  setScreen (λ st, mkState (children st) (selectedChild st) l
                     (locationHistory st) (refreshing st) (loading st)).
Definition setLocationHistory (h : list LocationData) :=
  setScreen (λ st, mkState (children st) (selectedChild st) (currentLocation st)
                     h (refreshing st) (loading st)).
Definition setRefreshing (b : bool) :=
  setScreen (λ st, mkState (children st) (selectedChild st) (currentLocation st)
                     (locationHistory st) b (loading st)).
Definition setLoading (b : bool) :=
  setScreen (λ st, mkState (children st) (selectedChild st) (currentLocation st)
                     (locationHistory st) (refreshing st) b).

Record Env := {
  BACKEND_URL : string;
  getChildren : string → Outcome (list ChildDevice);
  getLatest : string → Outcome (option LocationData);
  getHistory : string → Outcome (list LocationData);
}.

Definition latestUrl (env : Env) (childDeviceId : string) : string :=
  BACKEND_URL env +:+ "/api/locations/" +:+ childDeviceId +:+ "/latest".

Definition historyUrl (env : Env) (childDeviceId : string) : string :=
  BACKEND_URL env +:+ "/api/locations/" +:+ childDeviceId +:+ "/history?limit=50".

Definition loadData (env : Env) (render : State) : Async (Browsing State) unit :=
  try_finally
    (try_catch
       (deviceId <- AsyncStorage_getItem "device_id" ;;
        if negb (JS.truthy_string deviceId) then ret tt
        else
          let url := childrenUrl (BACKEND_URL env) (default "" deviceId) in
          data <- axios_get url (getChildren env url) ;;
          setChildren data ;;
          if (0 <? length data)%nat && negb (bool_decide (is_Some (selectedChild render)))
          then setSelectedChild (data !! 0%nat)
          else ret tt)
       (λ error,
          console_error "Error loading data:" error ;;
          Alert_alert "Error" "Failed to load children devices."))
    (setLoading false).

Definition loadChildLocation (env : Env) (childDeviceId : string)
  : Async (Browsing State) unit :=
  try_catch
    (let latest := latestUrl env childDeviceId in
     latestData <- axios_get latest (getLatest env latest) ;;
     setCurrentLocation latestData ;;
     let history := historyUrl env childDeviceId in
     historyData <- axios_get history (getHistory env history) ;;
     setLocationHistory historyData)
    (λ error, console_error "Error loading child location:" error).

Definition onRefresh (env : Env) (render : State) : Async (Browsing State) unit :=
  setRefreshing true ;;
  loadData env render ;;
  (match selectedChild render with
   | Some c => loadChildLocation env (device_id c)
   | None => ret tt
   end) ;;
  setRefreshing false.


End ParentDashboard.

(** ** Further samples *)

Module Scenario.

Definition anna : ChildDevice :=
  {| device_id := "device_1700000100_anna00001"; device_name := "Anna" |}.
Definition ben : ChildDevice :=
  {| device_id := "device_1700000200_ben000002"; device_name := "Ben" |}.
Definition gone : ChildDevice :=
  {| device_id := "device_1600000000_gone00000"; device_name := "Old phone" |}.

Definition parentStore : AsyncStorage :=
  {[ "device_id" := "device_1700000000_abc123xyz" ]}.

Definition gallery (selected : option ChildDevice)
  : World (Browsing GalleryData.State) :=
  mkWorld parentStore ∅ []
    (mkBrowsing
       (GalleryData.mkState [] selected [] false true ParentGallery.date) []).

Definition galleryBackend : GalleryData.Env :=
  {| GalleryData.BACKEND_URL := "https://backend.example";
     GalleryData.getChildren := λ _, Resolved [anna; ben];
     GalleryData.getMedia := λ _, Resolved [Sample.paris; Sample.equator] |}.

Definition galleryOffline : GalleryData.Env :=
  {| GalleryData.BACKEND_URL := "https://backend.example";
     GalleryData.getChildren := λ _, Rejected "Network Error";
     GalleryData.getMedia := λ _, Rejected "Network Error" |}.

Definition fix_ (lat : Q) : ParentDashboard.LocationData :=
  {| ParentDashboard.latitude := lat;
     ParentDashboard.longitude := 2;
     ParentDashboard.timestamp := "2023-11-14T22:13:20Z";
     ParentDashboard.accuracy := Some 5%Q;
     ParentDashboard.speed := None |}.

Definition dashboard (selected : option ChildDevice)
  : World (Browsing ParentDashboard.State) :=
  mkWorld parentStore ∅ []
    (mkBrowsing
       (ParentDashboard.mkState [anna; ben] selected (Some (fix_ 1)) [fix_ 1; fix_ 2]
          false false) []).

(** Latest location available, history not. *)
Definition historyDown : ParentDashboard.Env :=
  {| ParentDashboard.BACKEND_URL := "https://backend.example";
     ParentDashboard.getChildren := λ _, Resolved [anna; ben];
     ParentDashboard.getLatest := λ _, Resolved (Some (fix_ 48));
     ParentDashboard.getHistory := λ _, Rejected "timeout" |}.

(** A tracking child device. *)
Definition tracking : World ChildTracking.State :=
  mkWorld {[ "device_id" := Sample.deviceId ]}
    {[ ChildTracking.LOCATION_TASK_NAME ]} []
    (ChildTracking.mkState "Pixel" true None true).

(** The scheduler refuses to stop the task. *)
Definition stuck : ChildTracking.Env :=
  {| ChildTracking.BACKEND_URL := "https://backend.example";
     ChildTracking.Location_requestForegroundPermissionsAsync := Resolved granted;
     ChildTracking.Location_requestBackgroundPermissionsAsync := Resolved granted;
     ChildTracking.Contacts_requestPermissionsAsync := Resolved granted;
     ChildTracking.MediaLibrary_requestPermissionsAsync := Resolved granted;
     ChildTracking.Contacts_getPermissionsAsync := Resolved granted;
     ChildTracking.Contacts_getContactsAsync := Resolved [];
     ChildTracking.MediaLibrary_getPermissionsAsync := Resolved granted;
     ChildTracking.MediaLibrary_getAssetsAsync := Rejected "Media library unavailable";
     ChildTracking.Location_getCurrentPositionAsync := Rejected "Location unavailable";
     ChildTracking.Location_startLocationUpdatesAsync := Rejected "Task refused";
     ChildTracking.Location_stopLocationUpdatesAsync := Rejected "Task not found";
     ChildTracking.axios_post := λ _ _, Rejected "Network Error";
     ChildTracking.Date_now := 1700000360000 |}.

End Scenario.

(** * Properties *)

(** ** Strings *)

Lemma toUpperCase_length (s : string) : String.length (JS.toUpperCase s) = String.length s.
Proof. induction s as [|c r IH]; simpl; congruence. Qed.

Lemma length_append (s1 s2 : string) :
  String.length (s1 +:+ s2) = String.length s1 + String.length s2.
Proof. induction s1 as [|c r IH]; [done|]. simpl. by rewrite IH. Qed.

Lemma substring_all (s : string) : String.substring 0 (String.length s) s = s.
Proof. induction s as [|c r IH]; simpl; [done|]. by rewrite IH. Qed.

Lemma substring_drop_all (n : nat) (s : string) :
  n ≤ String.length s →
  ∃ p, s = p +:+ String.substring n (String.length s - n) s ∧ String.length p = n.
Proof.
  revert s. induction n as [|n IH]; intros s Hn.
  - exists "". split; [|done]. simpl. by rewrite Nat.sub_0_r, substring_all.
  - destruct s as [|c r]; simpl in *; [lia|].
    destruct (IH r) as (p & Hp & Hl); [lia|].
    exists (String c p). split; [|by simpl; rewrite Hl].
    change (String c r = String c (p +:+ String.substring n (String.length r - n) r)).
    by rewrite <- Hp.
Qed.

Lemma substring_length (n m : nat) (s : string) :
  n + m ≤ String.length s → String.length (String.substring n m s) = m.
Proof.
  revert m s. induction n as [|n IH]; intros m s.
  - revert s. induction m as [|m IHm]; intros [|c r]; simpl; try lia; try done.
    intros. rewrite IHm; [done|lia].
  - destruct s as [|c r]; simpl; [lia|]. intros. apply IH. lia.
Qed.

(** The last six characters of a string that has at least six. *)
Lemma slice_last_six (s : string) :
  6 ≤ String.length s →
  ∃ p, s = p +:+ JS.slice (-6) s ∧ String.length (JS.slice (-6) s) = 6.
Proof.
  intros Hlen. unfold JS.slice. cbv zeta.
  replace (-6 <? 0)%Z with true by done.
  set (len := String.length s) in *.
  replace (Z.to_nat (Z.max (Z.of_nat len + -6) 0)) with (len - 6) by lia.
  replace (Z.to_nat (Z.of_nat len - Z.max (Z.of_nat len + -6) 0)) with 6 by lia.
  destruct (substring_drop_all (len - 6) s) as (p & Hp & Hl); [lia|].
  fold len in Hp. replace (len - (len - 6)) with 6 in Hp by lia.
  exists p. split; [done|]. apply substring_length. lia.
Qed.

Lemma newDeviceId_length now rnd : 6 ≤ String.length (newDeviceId now rnd).
Proof. unfold newDeviceId. rewrite length_append. simpl. lia. Qed.

Lemma truthy_string_Some (d : string) :
  d ≠ "" → JS.truthy_string (Some d) = true.
Proof. intros Hd. simpl. by destruct (String.eqb_spec d "") as [->|_]. Qed.

Lemma newDeviceId_truthy now rnd : JS.truthy_string (Some (newDeviceId now rnd)) = true.
Proof. done. Qed.

(** ** The pairing code *)

(** C3 (amended): the code derived from the identifier
    "device_1700000000_abc123xyz" - its last six characters, upper-cased -
    is "123XYZ", and that is the code the pairing screen shows for a store
    holding this identifier. *)
Theorem pairing_code_of_sample_device :
  PairDevice.derive (Some "device_1700000000_abc123xyz") = "123XYZ"
  ∧ ∀ st, PairDevice.pairingCode
            (PairDevice.generatePairingCode
               {[ "device_id" := "device_1700000000_abc123xyz" ]} st) = "123XYZ".
Proof. split; [|intros st]; vm_compute; reflexivity. Qed.

(** C3 as stated fails: the derived code is not "BC123X". *)
Lemma pairing_code_of_sample_device_not_BC123X :
  PairDevice.derive (Some "device_1700000000_abc123xyz") ≠ "BC123X".
Proof. vm_compute. discriminate. Qed.

(** C4: for every device identifier [d] the screen's pairing code depends on
    nothing but [d] (whatever else the store and the screen hold, on every
    call), has six characters, and is the upper-cased six-character tail of
    [d].  The derivation is a total function: it performs no I/O and cannot
    fail. *)
Theorem pairing_code_deterministic_six_chars (d : string) :
  isDeviceId d →
  ∀ (storage1 storage2 : AsyncStorage) (st1 st2 : PairDevice.State),
    storage1 !! "device_id" = Some d →
    storage2 !! "device_id" = Some d →
    let code := PairDevice.pairingCode (PairDevice.generatePairingCode storage1 st1) in
    code = PairDevice.pairingCode (PairDevice.generatePairingCode storage2 st2)
    ∧ code = PairDevice.derive (Some d)
    ∧ String.length code = 6
    ∧ ∃ front tail,
        d = front +:+ tail ∧ String.length tail = 6 ∧ code = JS.toUpperCase tail.
Proof.
  intros (now & rnd & ->) storage1 storage2 st1 st2 H1 H2.
  unfold PairDevice.generatePairingCode, getItem. simpl.
  rewrite H1, H2. split; [done|]. split; [done|].
  unfold PairDevice.derive. rewrite newDeviceId_truthy. simpl default.
  destruct (slice_last_six (newDeviceId now rnd)) as (front & Hd & Hlen);
    [apply newDeviceId_length|].
  split.
  - by rewrite toUpperCase_length.
  - by exists front, (JS.slice (-6) (newDeviceId now rnd)).
Qed.

Lemma pairing_code_deterministic_six_chars_witness :
  let d := "device_1700000000_abc123xyz" in
  let code :=
    PairDevice.pairingCode
      (PairDevice.generatePairingCode {[ "device_id" := d ]}
         (PairDevice.mkState "" "")) in
  code = PairDevice.pairingCode
           (PairDevice.generatePairingCode
              (<[ "device_name" := "Pixel" ]> {[ "device_id" := d ]})
              (PairDevice.mkState "000000" "other"))
  ∧ code = PairDevice.derive (Some d)
  ∧ String.length code = 6
  ∧ ∃ front tail,
      d = front +:+ tail ∧ String.length tail = 6 ∧ code = JS.toUpperCase tail.
Proof.
  intros d.
  apply (pairing_code_deterministic_six_chars d).
  - exists 1700000000%N, "0.abc123xyz". vm_compute. reflexivity.
  - vm_compute. reflexivity.
  - vm_compute. reflexivity.
Defined.

(** ** The domain syncs *)

Ltac async_unfold :=
  unfold try_catch, try_finally, bind, call, post, throw, ret,
    Alert_alert, console_log, console_error, router_replace, emit,
    AsyncStorage_getItem, AsyncStorage_setItem, setState, getState,
    ChildTracking.extend;
  cbn.

Ltac settle := cbn; rewrite <- ?app_assoc, ?app_nil_r; try done.

Section DomainSyncs.
Import ChildTracking.
Variable env : Env.

Lemma extend_nil (w : World State) : extend w [] = w.
Proof. destruct w. unfold extend. simpl. by rewrite app_nil_r. Qed.

Lemma extend_extend (w : World State) (e1 e2 : list Event) :
  extend (extend w e1) e2 = extend w (e1 ++ e2).
Proof. unfold extend. simpl. by rewrite app_assoc. Qed.

Lemma added_extend {A} (c : Async State A) (w : World State) a evs :
  c w = (a, extend w evs) → added c w = evs.
Proof.
  intros H. unfold added. rewrite H. simpl. by rewrite drop_app_length.
Qed.

(** A domain sync never rejects, touches neither the store, the task
    registry nor the screen, and adds the events it has when it runs
    alone. *)
Lemma syncContacts_run (d : string) (w : World State) :
  syncContacts env d w = (Resolved tt, extend w (eventsOf (syncContacts env d))).
Proof.
  unfold eventsOf, syncContacts. async_unfold.
  destruct (Contacts_getPermissionsAsync env) as [[]|]; settle.
  destruct (Contacts_getContactsAsync env) as [data|]; settle.
  destruct (axios_post env _ _); settle.
Qed.

Lemma syncGalleryMetadata_run (d : string) (w : World State) :
  syncGalleryMetadata env d w
  = (Resolved tt, extend w (eventsOf (syncGalleryMetadata env d))).
Proof.
  unfold eventsOf, syncGalleryMetadata. async_unfold.
  destruct (MediaLibrary_getPermissionsAsync env) as [[]|]; settle.
  destruct (MediaLibrary_getAssetsAsync env) as [assets|]; settle.
  destruct (axios_post env _ _); settle.
Qed.

Lemma syncCurrentLocation_run (d : string) (w : World State) :
  syncCurrentLocation env d w
  = (Resolved tt, extend w (eventsOf (syncCurrentLocation env d))).
Proof.
  unfold eventsOf, syncCurrentLocation. async_unfold.
  destruct (Location_getCurrentPositionAsync env) as [position|]; settle.
  destruct (axios_post env _ _); settle.
Qed.

Lemma syncAllData_run (d : string) (w : World State) :
  storage w !! "device_id" = Some d → d ≠ "" →
  syncAllData env w = (Resolved tt, synced env d w).
Proof.
  intros Hd Hne. unfold syncAllData, try_catch, bind, AsyncStorage_getItem, getItem.
  rewrite Hd, truthy_string_Some by done. cbn [negb default].
  rewrite syncContacts_run, syncGalleryMetadata_run, syncCurrentLocation_run.
  unfold synced, extend, setLastSync, setState, Alert_alert, emit. simpl.
  by rewrite <- !app_assoc.
Qed.

Lemma syncAllData_without_id (w : World State) :
  JS.truthy_string (storage w !! "device_id") = false →
  syncAllData env w = (Resolved tt, w).
Proof.
  intros Hd. unfold syncAllData, try_catch, bind, AsyncStorage_getItem, getItem.
  by rewrite Hd.
Qed.

(** *** What each domain does *)

Lemma syncContacts_skipped (d : string) (status : PermissionStatus) :
  Contacts_getPermissionsAsync env = Resolved status →
  status ≠ granted →
  eventsOf (syncContacts env d) = [OsCall Contacts_getPermissions].
Proof.
  intros Hs Hne. unfold eventsOf, syncContacts. async_unfold. rewrite Hs.
  by destruct status.
Qed.

Lemma syncContacts_uploaded (d : string) (data : list Contact) :
  Contacts_getPermissionsAsync env = Resolved granted →
  Contacts_getContactsAsync env = Resolved data →
  eventsOf (syncContacts env d)
  = [OsCall Contacts_getPermissions; OsCall Contacts_getContacts;
     HttpPost (contactsUrl env) (ContactsBatch d (map toContactRecord data));
     match axios_post env (contactsUrl env) (ContactsBatch d (map toContactRecord data)) with
     | Resolved _ => ConsoleLog "Contacts synced:" (Some (length data))
     | Rejected e => ConsoleError "Error syncing contacts:" e
     end].
Proof.
  intros Hs Hd. unfold eventsOf, syncContacts, contactsUrl. async_unfold.
  rewrite Hs. cbn. rewrite Hd. cbn.
  destruct (axios_post env _ _); cbn; by rewrite ?length_map.
Qed.

Lemma syncGalleryMetadata_skipped (d : string) (status : PermissionStatus) :
  MediaLibrary_getPermissionsAsync env = Resolved status →
  status ≠ granted →
  eventsOf (syncGalleryMetadata env d) = [OsCall MediaLibrary_getPermissions].
Proof.
  intros Hs Hne. unfold eventsOf, syncGalleryMetadata. async_unfold. rewrite Hs.
  by destruct status.
Qed.

Lemma syncGalleryMetadata_uploaded (d : string) (assets : list Asset) :
  MediaLibrary_getPermissionsAsync env = Resolved granted →
  MediaLibrary_getAssetsAsync env = Resolved assets →
  eventsOf (syncGalleryMetadata env d)
  = [OsCall MediaLibrary_getPermissions; OsCall MediaLibrary_getAssets;
     HttpPost (mediaUrl env) (MediaBatch d (map toMediaRecord assets));
     match axios_post env (mediaUrl env) (MediaBatch d (map toMediaRecord assets)) with
     | Resolved _ => ConsoleLog "Media metadata synced:" (Some (length assets))
     | Rejected e => ConsoleError "Error syncing gallery metadata:" e
     end].
Proof.
  intros Hs Hd. unfold eventsOf, syncGalleryMetadata, mediaUrl. async_unfold.
  rewrite Hs. cbn. rewrite Hd. cbn.
  destruct (axios_post env _ _); cbn; by rewrite ?length_map.
Qed.

Lemma syncCurrentLocation_uploaded (d : string) (fix_ : LocationObject) :
  Location_getCurrentPositionAsync env = Resolved fix_ →
  eventsOf (syncCurrentLocation env d)
  = [OsCall Location_getCurrentPosition;
     HttpPost (locationUrl env) (LocationSample d (coords fix_));
     match axios_post env (locationUrl env) (LocationSample d (coords fix_)) with
     | Resolved _ => ConsoleLog "Location synced" None
     | Rejected e => ConsoleError "Error syncing location:" e
     end].
Proof.
  intros Hd. unfold eventsOf, syncCurrentLocation, locationUrl. async_unfold.
  rewrite Hd. cbn. by destruct (axios_post env _ _).
Qed.

(** *** The events of a domain belong to that domain *)

Lemma syncContacts_events (d : string) :
  eventsOf (syncContacts env d) ≠ []
  ∧ Forall (λ e, eventDomain e = Some Contacts) (eventsOf (syncContacts env d)).
Proof.
  unfold eventsOf, syncContacts. async_unfold.
  destruct (Contacts_getPermissionsAsync env) as [[]|]; cbn;
    try (split; [done|by repeat constructor]).
  destruct (Contacts_getContactsAsync env) as [data|]; cbn;
    try (split; [done|by repeat constructor]).
  destruct (axios_post env _ _); cbn; split; try done; by repeat constructor.
Qed.

Lemma syncGalleryMetadata_events (d : string) :
  eventsOf (syncGalleryMetadata env d) ≠ []
  ∧ Forall (λ e, eventDomain e = Some Media) (eventsOf (syncGalleryMetadata env d)).
Proof.
  unfold eventsOf, syncGalleryMetadata. async_unfold.
  destruct (MediaLibrary_getPermissionsAsync env) as [[]|]; cbn;
    try (split; [done|by repeat constructor]).
  destruct (MediaLibrary_getAssetsAsync env) as [assets|]; cbn;
    try (split; [done|by repeat constructor]).
  destruct (axios_post env _ _); cbn; split; try done; by repeat constructor.
Qed.

Lemma syncCurrentLocation_events (d : string) :
  eventsOf (syncCurrentLocation env d) ≠ []
  ∧ Forall (λ e, eventDomain e = Some Location) (eventsOf (syncCurrentLocation env d)).
Proof.
  unfold eventsOf, syncCurrentLocation. async_unfold.
  destruct (Location_getCurrentPositionAsync env) as [position|]; cbn;
    try (split; [done|by repeat constructor]).
  destruct (axios_post env _ _); cbn; split; try done; by repeat constructor.
Qed.

Lemma syncAllData_added (d : string) (w : World State) :
  storage w !! "device_id" = Some d → d ≠ "" →
  added (syncAllData env) w
  = eventsOf (syncContacts env d) ++ eventsOf (syncGalleryMetadata env d)
      ++ eventsOf (syncCurrentLocation env d)
      ++ [AlertShown "Success" "All data synced successfully!"].
Proof.
  intros Hd Hne. unfold added. rewrite (syncAllData_run d) by done.
  simpl. by rewrite drop_app_length.
Qed.

End DomainSyncs.

Lemma errors_app (t1 t2 : list Event) : errors (t1 ++ t2) = errors t1 ++ errors t2.
Proof. apply omap_app. Qed.

Lemma posts_app (t1 t2 : list Event) : posts (t1 ++ t2) = posts t1 ++ posts t2.
Proof. apply omap_app. Qed.

Lemma posts_cons (url : string) (body : Body) (t : list Event) :
  posts (HttpPost url body :: t) = (url, body) :: posts t.
Proof. done. Qed.

(** ** The synchronisation pass *)

Section Synchronisation.
Import ChildTracking.

(** C1 (amended): with a device identifier in the store, [syncAllData] runs
    the three domain syncs and settles without a value in every case - it
    carries no list of failed domains.  Each domain runs exactly as it runs
    alone, whatever became of its siblings; a request that fails inside a
    domain is caught there and shows only as that domain's console error,
    and no error is logged outside the three domains. *)
Theorem syncAllData_isolates_domains
    (env : Env) (w : World State) (d : string) :
  storage w !! "device_id" = Some d → d ≠ "" →
  let contacts := eventsOf (syncContacts env d) in
  let media := eventsOf (syncGalleryMetadata env d) in
  let location := eventsOf (syncCurrentLocation env d) in
  (syncAllData env w).1 = Resolved tt
  ∧ (∃ rest,
       added (syncAllData env) w
       = contacts ++ media ++ location ++ rest
       ∧ posts rest = [] ∧ errors rest = [])
  ∧ errors (added (syncAllData env) w)
    = errors contacts ++ errors media ++ errors location
  ∧ (∀ data body e,
       Contacts_getPermissionsAsync env = Resolved granted →
       Contacts_getContactsAsync env = Resolved data →
       body = ContactsBatch d (map toContactRecord data) →
       axios_post env (contactsUrl env) body = Rejected e →
       errors contacts = [("Error syncing contacts:", e)])
  ∧ (∀ assets body e,
       MediaLibrary_getPermissionsAsync env = Resolved granted →
       MediaLibrary_getAssetsAsync env = Resolved assets →
       body = MediaBatch d (map toMediaRecord assets) →
       axios_post env (mediaUrl env) body = Rejected e →
       errors media = [("Error syncing gallery metadata:", e)])
  ∧ (∀ position body e,
       Location_getCurrentPositionAsync env = Resolved position →
       body = LocationSample d (coords position) →
       axios_post env (locationUrl env) body = Rejected e →
       errors location = [("Error syncing location:", e)]).
Proof.
  intros Hd Hne contacts media location.
  rewrite (syncAllData_added env d w Hd Hne), (syncAllData_run env d w Hd Hne).
  fold contacts media location.
  split; [done|]. split; [by eexists|].
  split; [by rewrite !errors_app, app_nil_r|].
  split; [|split].
  - intros data body e Hp Hc -> He. unfold contacts.
    by rewrite (syncContacts_uploaded env d data Hp Hc), He.
  - intros assets body e Hp Hc -> He. unfold media.
    by rewrite (syncGalleryMetadata_uploaded env d assets Hp Hc), He.
  - intros position body e Hc -> He. unfold location.
    by rewrite (syncCurrentLocation_uploaded env d position Hc), He.
Qed.

Lemma syncAllData_isolates_domains_witness :
  let env := Sample.allGranted Sample.contactsDown in
  let d := Sample.deviceId in
  let contacts := eventsOf (syncContacts env d) in
  let media := eventsOf (syncGalleryMetadata env d) in
  let location := eventsOf (syncCurrentLocation env d) in
  (syncAllData env Sample.paired).1 = Resolved tt
  ∧ (∃ rest,
       added (syncAllData env) Sample.paired
       = contacts ++ media ++ location ++ rest
       ∧ posts rest = [] ∧ errors rest = [])
  ∧ errors (added (syncAllData env) Sample.paired)
    = errors contacts ++ errors media ++ errors location
  ∧ (∀ data body e,
       Contacts_getPermissionsAsync env = Resolved granted →
       Contacts_getContactsAsync env = Resolved data →
       body = ContactsBatch d (map toContactRecord data) →
       axios_post env (contactsUrl env) body = Rejected e →
       errors contacts = [("Error syncing contacts:", e)])
  ∧ (∀ assets body e,
       MediaLibrary_getPermissionsAsync env = Resolved granted →
       MediaLibrary_getAssetsAsync env = Resolved assets →
       body = MediaBatch d (map toMediaRecord assets) →
       axios_post env (mediaUrl env) body = Rejected e →
       errors media = [("Error syncing gallery metadata:", e)])
  ∧ (∀ position body e,
       Location_getCurrentPositionAsync env = Resolved position →
       body = LocationSample d (coords position) →
       axios_post env (locationUrl env) body = Rejected e →
       errors location = [("Error syncing location:", e)]).
Proof.
  apply (syncAllData_isolates_domains
           (Sample.allGranted Sample.contactsDown) Sample.paired Sample.deviceId).
  - vm_compute. reflexivity.
  - discriminate.
Defined.

(** C1 as stated fails: when the contacts upload is refused the pass
    settles exactly as when every upload goes through - same value, same
    alerts - so what it reports upward cannot tell [Ok] from a partial
    failure of the contacts domain. *)
Lemma syncAllData_reports_no_failed_domain :
  let ok := syncAllData (Sample.allGranted Sample.backendUp) Sample.paired in
  let down := syncAllData (Sample.allGranted Sample.contactsDown) Sample.paired in
  errors (trace ok.2) = []
  ∧ errors (trace down.2) = [("Error syncing contacts:", "Network Error")]
  ∧ ¬ ∃ report : Outcome unit * list (string * string) → SyncResult,
        report (ok.1, alerts (trace ok.2)) = Ok
        ∧ report (down.1, alerts (trace down.2))
          = PartialFailure [Contacts].
Proof.
  intros ok down. split; [by vm_compute|]. split; [by vm_compute|].
  intros (report & Hok & Hdown).
  assert (Hsame : (ok.1, alerts (trace ok.2)) = (down.1, alerts (trace down.2)))
    by (vm_compute; reflexivity).
  rewrite Hsame in Hok. congruence.
Qed.

(** C7: without a device identifier in the store [syncAllData] does
    nothing at all - no domain is attempted, nothing is uploaded, nothing is
    logged or alerted - and the background handler settles without an error
    and without an upload; handed location fixes, it leaves the world as it
    found it. *)
Theorem no_device_id_is_a_no_op (env : Env) (w : World State) :
  storage w !! "device_id" = None →
  syncAllData env w = (Resolved tt, w)
  ∧ (∀ body,
       (backgroundLocationTask env body w).1 = Resolved tt
       ∧ posts (trace (backgroundLocationTask env body w).2) = posts (trace w))
  ∧ (∀ body, error body = None →
       backgroundLocationTask env body w = (Resolved tt, w)).
Proof.
  intros Hd. split; [apply syncAllData_without_id; by rewrite Hd|].
  split.
  - intros [data [e|]]; unfold backgroundLocationTask; async_unfold;
      unfold getItem; rewrite ?Hd; cbn.
    + by rewrite posts_app, app_nil_r.
    + destruct data; cbn; by rewrite ?Hd.
  - intros [data e] He. simpl in He. subst e.
    unfold backgroundLocationTask. async_unfold. unfold getItem.
    destruct data; cbn; by rewrite ?Hd.
Qed.

Lemma no_device_id_is_a_no_op_witness :
  let env := Sample.allGranted Sample.backendUp in
  let w := Sample.unpaired in
  syncAllData env w = (Resolved tt, w)
  ∧ (∀ body,
       (backgroundLocationTask env body w).1 = Resolved tt
       ∧ posts (trace (backgroundLocationTask env body w).2) = posts (trace w))
  ∧ (∀ body, error body = None →
       backgroundLocationTask env body w = (Resolved tt, w)).
Proof.
  apply (no_device_id_is_a_no_op (Sample.allGranted Sample.backendUp) Sample.unpaired).
  vm_compute. reflexivity.
Defined.

Lemma or_string_empty (s : option string) : JS.or_string s "" = default "" s.
Proof. destruct s as [s|]; simpl; [|done]. by destruct (String.eqb_spec s "") as [->|]. Qed.

(** C8: with the contacts permission granted, [syncContacts] issues exactly
    one request, to the contacts batch endpoint, carrying one record for
    each contact the provider returned, in the provider's order: the
    identifier is kept, an absent name becomes "Unknown", and the phone
    numbers and e-mail addresses are flattened to strings in their order. *)
Theorem syncContacts_uploads_one_batch
    (env : Env) (w : World State) (d : string) (data : list Contact) :
  Contacts_getPermissionsAsync env = Resolved granted →
  Contacts_getContactsAsync env = Resolved data →
  ∃ records,
    posts (added (syncContacts env d) w)
    = [(BACKEND_URL env +:+ "/api/contacts/batch", ContactsBatch d records)]
    ∧ length records = length data
    ∧ ∀ (i : nat) (contact : Contact),
        data !! i = Some contact →
        ∃ record,
          records !! i = Some record
          ∧ id record = contact_id contact
          ∧ (contact_name contact = None → name record = "Unknown")
          ∧ (∀ n, contact_name contact = Some n → n ≠ "" → name record = n)
          ∧ phoneNumbers record
            = (λ p, default "" (number p)) <$> default [] (contact_phoneNumbers contact)
          ∧ emails record
            = (λ e, default "" (email e)) <$> default [] (contact_emails contact).
Proof.
  intros Hp Hc. exists (map toContactRecord data).
  rewrite (added_extend _ _ _ _ (syncContacts_run env d w)).
  rewrite (syncContacts_uploaded env d data Hp Hc).
  split; [by destruct (axios_post env _ _)|].
  split; [apply length_map|].
  intros i contact Hi. exists (toContactRecord contact).
  split; [by rewrite list_lookup_fmap, Hi|].
  split; [done|]. unfold toContactRecord; simpl.
  split; [by intros ->|]. split.
  - intros n -> Hn. simpl. by destruct (String.eqb_spec n "").
  - split.
    + destruct (contact_phoneNumbers contact) as [ps|]; simpl; [|done].
      apply map_ext. intros p. apply or_string_empty.
    + destruct (contact_emails contact) as [es|]; simpl; [|done].
      apply map_ext. intros e. apply or_string_empty.
Qed.

Lemma syncContacts_uploads_one_batch_witness :
  let env := Sample.allGranted Sample.backendUp in
  let d := Sample.deviceId in
  let data := [Sample.alice; Sample.nameless; Sample.bob] in
  ∃ records,
    posts (added (syncContacts env d) Sample.paired)
    = [(BACKEND_URL env +:+ "/api/contacts/batch", ContactsBatch d records)]
    ∧ length records = length data
    ∧ ∀ (i : nat) (contact : Contact),
        data !! i = Some contact →
        ∃ record,
          records !! i = Some record
          ∧ id record = contact_id contact
          ∧ (contact_name contact = None → name record = "Unknown")
          ∧ (∀ n, contact_name contact = Some n → n ≠ "" → name record = n)
          ∧ phoneNumbers record
            = (λ p, default "" (number p)) <$> default [] (contact_phoneNumbers contact)
          ∧ emails record
            = (λ e, default "" (email e)) <$> default [] (contact_emails contact).
Proof.
  apply (syncContacts_uploads_one_batch
           (Sample.allGranted Sample.backendUp) Sample.paired Sample.deviceId
           [Sample.alice; Sample.nameless; Sample.bob]); reflexivity.
Defined.

Lemma same_stage_sorted (n : nat) (t : list Event) :
  Forall (λ e, stage e = n) t → StronglySorted (λ a b, stage a ≤ stage b) t.
Proof.
  induction 1 as [|e t He Ht IH]; constructor; [done|].
  eapply Forall_impl; [exact Ht|]. simpl. intros e' He'. lia.
Qed.

Lemma stage_of_domain (D : Domain) (n : nat) (t : list Event) :
  (∀ e, eventDomain e = Some D → stage e = n) →
  Forall (λ e, eventDomain e = Some D) t → Forall (λ e, stage e = n) t.
Proof. intros Hn Ht. by eapply Forall_impl. Qed.

(** C9: with a device identifier in the store, the events of one
    [syncAllData] fall into three consecutive blocks - all events of the
    contacts domain, then all events of the media domain, then all events
    of the location domain - each block being the whole of that domain's
    run and none of them empty; hence no event of a domain comes after an
    event of a later domain. *)
Theorem syncAllData_runs_domains_in_order
    (env : Env) (w : World State) (d : string) :
  storage w !! "device_id" = Some d → d ≠ "" →
  (∃ contacts media location rest,
     added (syncAllData env) w = contacts ++ media ++ location ++ rest
     ∧ contacts = eventsOf (syncContacts env d)
     ∧ media = eventsOf (syncGalleryMetadata env d)
     ∧ location = eventsOf (syncCurrentLocation env d)
     ∧ contacts ≠ [] ∧ media ≠ [] ∧ location ≠ []
     ∧ Forall (λ e, eventDomain e = Some Contacts) contacts
     ∧ Forall (λ e, eventDomain e = Some Media) media
     ∧ Forall (λ e, eventDomain e = Some Location) location
     ∧ Forall (λ e, eventDomain e = None) rest)
  ∧ StronglySorted (λ a b, stage a ≤ stage b) (added (syncAllData env) w).
Proof.
  intros Hd Hne. rewrite (syncAllData_added env d w Hd Hne).
  destruct (syncContacts_events env d) as [Hc1 Hc2].
  destruct (syncGalleryMetadata_events env d) as [Hm1 Hm2].
  destruct (syncCurrentLocation_events env d) as [Hl1 Hl2].
  split.
  - eexists _, _, _, _. split; [reflexivity|]. repeat split; try done.
    by repeat constructor.
  - apply (stage_of_domain Contacts 0) in Hc2; [|by intros e; unfold stage; intros ->].
    apply (stage_of_domain Media 1) in Hm2; [|by intros e; unfold stage; intros ->].
    apply (stage_of_domain Location 2) in Hl2; [|by intros e; unfold stage; intros ->].
    rewrite Forall_forall in Hc2, Hm2, Hl2.
    rewrite !StronglySorted_app.
    repeat split;
      try (eapply same_stage_sorted; rewrite Forall_forall; eassumption);
      try by repeat constructor.
    + intros a b Ha Hb. rewrite (Hc2 a Ha).  lia.
    + intros a b Ha Hb. rewrite (Hm2 a Ha).
      apply elem_of_app in Hb as [Hb|Hb]; [rewrite (Hl2 b Hb); lia|].
      apply list_elem_of_singleton in Hb as ->. unfold stage. simpl. lia.
    + intros a b Ha Hb. rewrite (Hl2 a Ha).
      apply list_elem_of_singleton in Hb as ->. unfold stage. simpl. lia.
Qed.

Lemma syncAllData_runs_domains_in_order_witness :
  let env := Sample.allGranted Sample.contactsDown in
  let w := Sample.paired in
  let d := Sample.deviceId in
  (∃ contacts media location rest,
     added (syncAllData env) w = contacts ++ media ++ location ++ rest
     ∧ contacts = eventsOf (syncContacts env d)
     ∧ media = eventsOf (syncGalleryMetadata env d)
     ∧ location = eventsOf (syncCurrentLocation env d)
     ∧ contacts ≠ [] ∧ media ≠ [] ∧ location ≠ []
     ∧ Forall (λ e, eventDomain e = Some Contacts) contacts
     ∧ Forall (λ e, eventDomain e = Some Media) media
     ∧ Forall (λ e, eventDomain e = Some Location) location
     ∧ Forall (λ e, eventDomain e = None) rest)
  ∧ StronglySorted (λ a b, stage a ≤ stage b) (added (syncAllData env) w).
Proof.
  apply (syncAllData_runs_domains_in_order
           (Sample.allGranted Sample.contactsDown) Sample.paired Sample.deviceId).
  - vm_compute. reflexivity.
  - discriminate.
Defined.

End Synchronisation.

(** ** Starting the tracking *)

Section Tracking.
Import ChildTracking.

(** A pass never rejects, and leaves the store, the task registry and the
    tracking flag of the screen alone. *)
Lemma syncAllData_frame (env : Env) (w : World State) :
  ∃ evs st,
    syncAllData env w = (Resolved tt, mkWorld (storage w) (tasks w) (trace w ++ evs) st)
    ∧ isTracking st = isTracking (ui w)
    ∧ locationEnabled st = locationEnabled (ui w).
Proof.
  destruct (storage w !! "device_id") as [d|] eqn:Hd.
  - destruct (String.eqb_spec d "") as [->|Hne].
    + exists [], (ui w). rewrite syncAllData_without_id by by rewrite Hd.
      destruct w. simpl. by rewrite app_nil_r.
    + rewrite (syncAllData_run env d w Hd Hne). by eexists _, _.
  - exists [], (ui w). rewrite syncAllData_without_id by by rewrite Hd.
    destruct w. simpl. by rewrite app_nil_r.
Qed.

Lemma status_after (w : World State) :
  isTracking (ui (checkTrackingStatus w).2)
  = bool_decide (LOCATION_TASK_NAME ∈ tasks w)
  ∧ tasks (checkTrackingStatus w).2 = tasks w.
Proof. done. Qed.

Ltac start_unfold :=
  unfold startTracking, requestPermissions, startLocationUpdatesAsync,
    setLocationEnabled, setIsTracking;
  async_unfold.

(** With both location permissions granted, the two remaining prompts
    answered and the registration accepted, the task is registered. *)
Lemma startTracking_started (env : Env) (w : World State)
    (contactsStatus mediaStatus : PermissionStatus) :
  Location_requestForegroundPermissionsAsync env = Resolved granted →
  Location_requestBackgroundPermissionsAsync env = Resolved granted →
  Contacts_requestPermissionsAsync env = Resolved contactsStatus →
  MediaLibrary_requestPermissionsAsync env = Resolved mediaStatus →
  Location_startLocationUpdatesAsync env = Resolved tt →
  (requestPermissions env w).1 = Resolved true
  ∧ (startTracking env w).1 = Resolved tt
  ∧ tasks (startTracking env w).2 = {[LOCATION_TASK_NAME]} ∪ tasks w
  ∧ isTracking (ui (startTracking env w).2) = true.
Proof.
  intros Hf Hb Hc Hm Hs.
  split.
  { unfold requestPermissions. async_unfold. rewrite Hf; cbn. rewrite Hb; cbn.
    rewrite Hc; cbn. destruct contactsStatus; cbn; rewrite Hm; cbn;
      by destruct mediaStatus. }
  start_unfold. rewrite Hf; cbn. rewrite Hb; cbn. rewrite Hc; cbn.
  destruct contactsStatus; cbn; rewrite Hm; cbn;
    destruct mediaStatus; cbn; rewrite Hs; cbn;
    match goal with
    | |- context [syncAllData env ?w'] =>
        destruct (syncAllData_frame env w') as (evs & st & -> & Ht & _)
    end; cbn in *; done.
Qed.

(** In every other case the task registry is left as it was. *)
Lemma startTracking_not_started (env : Env) (w : World State) :
  Location_requestForegroundPermissionsAsync env ≠ Resolved granted
  ∨ Location_requestBackgroundPermissionsAsync env ≠ Resolved granted
  ∨ Location_startLocationUpdatesAsync env ≠ Resolved tt →
  (startTracking env w).1 = Resolved tt
  ∧ tasks (startTracking env w).2 = tasks w.
Proof.
  intros H. start_unfold.
  destruct (Location_requestForegroundPermissionsAsync env) as [[]|]; cbn; try done.
  destruct (Location_requestBackgroundPermissionsAsync env) as [[]|]; cbn; try done.
  destruct (Contacts_requestPermissionsAsync env) as [[]|]; cbn; try done;
    destruct (MediaLibrary_requestPermissionsAsync env) as [[]|]; cbn; try done;
    destruct (Location_startLocationUpdatesAsync env) as [[]|]; cbn; try done;
    by destruct H as [H|[H|H]].
Qed.

(** C2 (amended): start with no task registered and let the contacts and
    media prompts be answered.  Then [startTracking] followed by the status
    check reports tracking exactly when both location permissions were
    granted and the registration of the task did not throw.  If the
    foreground permission is refused, [requestPermissions] yields false and
    all [startTracking] does is ask and show one alert; likewise, one prompt
    later, for the background permission.  In both cases no task is
    registered and the status check reports no tracking. *)
Theorem start_then_status (env : Env) (w : World State) :
  LOCATION_TASK_NAME ∉ tasks w →
  (∃ s, Contacts_requestPermissionsAsync env = Resolved s) →
  (∃ s, MediaLibrary_requestPermissionsAsync env = Resolved s) →
  let status := isTracking (ui (checkTrackingStatus (startTracking env w).2).2) in
  (status = true
   ↔ Location_requestForegroundPermissionsAsync env = Resolved granted
     ∧ Location_requestBackgroundPermissionsAsync env = Resolved granted
     ∧ Location_startLocationUpdatesAsync env = Resolved tt)
  ∧ (∀ s,
       Location_requestForegroundPermissionsAsync env = Resolved s → s ≠ granted →
       (requestPermissions env w).1 = Resolved false
       ∧ startTracking env w
         = (Resolved tt,
            extend w [OsCall Location_requestForegroundPermissions;
                      AlertShown "Permission Denied"
                        "Location permission is required for tracking."])
       ∧ status = false)
  ∧ (∀ s,
       Location_requestForegroundPermissionsAsync env = Resolved granted →
       Location_requestBackgroundPermissionsAsync env = Resolved s → s ≠ granted →
       (requestPermissions env w).1 = Resolved false
       ∧ startTracking env w
         = (Resolved tt,
            extend w [OsCall Location_requestForegroundPermissions;
                      OsCall Location_requestBackgroundPermissions;
                      AlertShown "Background Permission"
                        "Background location permission is required for continuous tracking."])
       ∧ status = false).
Proof.
  intros Hw [sc Hc] [sm Hm] status.
  assert (Hidle :
    Location_requestForegroundPermissionsAsync env ≠ Resolved granted
    ∨ Location_requestBackgroundPermissionsAsync env ≠ Resolved granted
    ∨ Location_startLocationUpdatesAsync env ≠ Resolved tt →
    status = false).
  { intros H. destruct (startTracking_not_started env w H) as [_ Ht].
    unfold status. rewrite (proj1 (status_after _)), Ht.
    by apply bool_decide_eq_false. }
  split; [split|split].
  - intros Hs.
    destruct (Location_requestForegroundPermissionsAsync env) as [[]|] eqn:Hf;
      try (rewrite Hidle in Hs by (left; discriminate); discriminate).
    destruct (Location_requestBackgroundPermissionsAsync env) as [[]|] eqn:Hb;
      try (rewrite Hidle in Hs by (right; left; discriminate); discriminate).
    destruct (Location_startLocationUpdatesAsync env) as [[]|] eqn:Hu;
      try (rewrite Hidle in Hs by (right; right; discriminate); discriminate).
    done.
  - intros (Hf & Hb & Hu).
    destruct (startTracking_started env w sc sm Hf Hb Hc Hm Hu) as (_ & _ & Ht & _).
    clear Hidle. unfold status. rewrite (proj1 (status_after _)), Ht.
    apply bool_decide_eq_true, elem_of_union. left. by apply elem_of_singleton.
  - intros s Hf Hs. split; [|split].
    + unfold requestPermissions. async_unfold. rewrite Hf.
      destruct s; [by destruct Hs|..]; by cbn.
    + start_unfold. rewrite Hf.
      destruct s; [by destruct Hs|..]; cbn; by rewrite <- ?app_assoc.
    + apply Hidle. left. rewrite Hf. by intros [= ->].
  - intros s Hf Hb Hs. split; [|split].
    + unfold requestPermissions. async_unfold. rewrite Hf; cbn. rewrite Hb.
      destruct s; [by destruct Hs|..]; by cbn.
    + start_unfold. rewrite Hf; cbn. rewrite Hb.
      destruct s; [by destruct Hs|..]; cbn; by rewrite <- ?app_assoc.
    + apply Hidle. right; left. rewrite Hb. by intros [= ->].
Qed.

Lemma start_then_status_witness :
  let env := Sample.env granted denied granted granted (Resolved tt) Sample.backendUp in
  let w := Sample.paired in
  let status := isTracking (ui (checkTrackingStatus (startTracking env w).2).2) in
  (status = true
   ↔ Location_requestForegroundPermissionsAsync env = Resolved granted
     ∧ Location_requestBackgroundPermissionsAsync env = Resolved granted
     ∧ Location_startLocationUpdatesAsync env = Resolved tt)
  ∧ (requestPermissions env w).1 = Resolved false
  ∧ startTracking env w
    = (Resolved tt,
       extend w [OsCall Location_requestForegroundPermissions;
                 OsCall Location_requestBackgroundPermissions;
                 AlertShown "Background Permission"
                   "Background location permission is required for continuous tracking."])
  ∧ status = false.
Proof.
  intros env w status.
  destruct (start_then_status env w) as (Hiff & _ & Hbackground).
  - apply not_elem_of_empty.
  - by exists granted.
  - by exists granted.
  - split; [exact Hiff|]. by apply (Hbackground denied).
Defined.

(** C2 as stated fails: both location permissions are granted, but the
    scheduler refuses the task, so the status check reports no tracking. *)
Lemma granted_but_not_tracking :
  let env :=
    Sample.env granted granted granted granted (Rejected "Task refused")
      Sample.backendUp in
  ¬ (isTracking (ui (checkTrackingStatus (startTracking env Sample.paired).2).2)
     = true
     ↔ Location_requestForegroundPermissionsAsync env = Resolved granted
       ∧ Location_requestBackgroundPermissionsAsync env = Resolved granted).
Proof.
  intros env [_ H]. specialize (H (conj eq_refl eq_refl)).
  vm_compute in H. discriminate.
Qed.

(** C6: whatever the answers to the contacts and media prompts, with both
    location permissions granted and the task accepted [startTracking]
    registers the task and the screen shows tracking.  At sync time a domain
    whose permission is not granted only asks for the permission: it
    settles normally, uploads nothing, logs nothing and alerts nothing, so
    the pass has no error from it. *)
Theorem refused_contacts_or_media_is_absorbed
    (env : Env) (w : World State) (d : string)
    (contactsAnswer mediaAnswer contactsStatus mediaStatus : PermissionStatus) :
  Location_requestForegroundPermissionsAsync env = Resolved granted →
  Location_requestBackgroundPermissionsAsync env = Resolved granted →
  Contacts_requestPermissionsAsync env = Resolved contactsAnswer →
  MediaLibrary_requestPermissionsAsync env = Resolved mediaAnswer →
  Location_startLocationUpdatesAsync env = Resolved tt →
  Contacts_getPermissionsAsync env = Resolved contactsStatus →
  MediaLibrary_getPermissionsAsync env = Resolved mediaStatus →
  ((requestPermissions env w).1 = Resolved true
   ∧ (startTracking env w).1 = Resolved tt
   ∧ LOCATION_TASK_NAME ∈ tasks (startTracking env w).2
   ∧ isTracking (ui (checkTrackingStatus (startTracking env w).2).2) = true)
  ∧ (contactsStatus ≠ granted →
     syncContacts env d w = (Resolved tt, extend w [OsCall Contacts_getPermissions]))
  ∧ (mediaStatus ≠ granted →
     syncGalleryMetadata env d w
     = (Resolved tt, extend w [OsCall MediaLibrary_getPermissions]))
  ∧ (contactsStatus ≠ granted → mediaStatus ≠ granted →
     storage w !! "device_id" = Some d → d ≠ "" →
     (syncAllData env w).1 = Resolved tt
     ∧ errors (added (syncAllData env) w)
       = errors (eventsOf (syncCurrentLocation env d))
     ∧ posts (added (syncAllData env) w)
       = posts (eventsOf (syncCurrentLocation env d))).
Proof.
  intros Hf Hb Hc Hm Hu Hcs Hms.
  destruct (startTracking_started env w contactsAnswer mediaAnswer Hf Hb Hc Hm Hu)
    as (Hr & Hs & Ht & Hi).
  split; [|split; [|split]].
  - assert (LOCATION_TASK_NAME ∈ ({[LOCATION_TASK_NAME]} ∪ tasks w : gset string))
      by (apply elem_of_union; left; by apply elem_of_singleton).
    split; [done|]. split; [done|]. split; [by rewrite Ht|].
    rewrite (proj1 (status_after _)), Ht. by apply bool_decide_eq_true.
  - intros Hne. by rewrite syncContacts_run, (syncContacts_skipped env d _ Hcs Hne).
  - intros Hne.
    by rewrite syncGalleryMetadata_run, (syncGalleryMetadata_skipped env d _ Hms Hne).
  - intros Hnc Hnm Hd Hne.
    rewrite (syncAllData_added env d w Hd Hne), (syncAllData_run env d w Hd Hne).
    rewrite (syncContacts_skipped env d _ Hcs Hnc),
      (syncGalleryMetadata_skipped env d _ Hms Hnm).
    split; [done|].
    change ([OsCall Contacts_getPermissions] ++ [OsCall MediaLibrary_getPermissions]
            ++ ?t) with ([OsCall Contacts_getPermissions;
                          OsCall MediaLibrary_getPermissions] ++ t).
    rewrite !errors_app, !posts_app. cbn. by rewrite !app_nil_r.
Qed.

Lemma refused_contacts_or_media_is_absorbed_witness :
  let env := Sample.env granted granted denied undetermined (Resolved tt) Sample.backendUp in
  let w := Sample.paired in
  let d := Sample.deviceId in
  ((requestPermissions env w).1 = Resolved true
   ∧ (startTracking env w).1 = Resolved tt
   ∧ LOCATION_TASK_NAME ∈ tasks (startTracking env w).2
   ∧ isTracking (ui (checkTrackingStatus (startTracking env w).2).2) = true)
  ∧ syncContacts env d w = (Resolved tt, extend w [OsCall Contacts_getPermissions])
  ∧ syncGalleryMetadata env d w
    = (Resolved tt, extend w [OsCall MediaLibrary_getPermissions])
  ∧ (syncAllData env w).1 = Resolved tt
  ∧ errors (added (syncAllData env) w) = errors (eventsOf (syncCurrentLocation env d))
  ∧ posts (added (syncAllData env) w) = posts (eventsOf (syncCurrentLocation env d)).
Proof.
  intros env w d.
  destruct (refused_contacts_or_media_is_absorbed env w d
              denied undetermined denied undetermined)
    as (Hstart & Hcontacts & Hmedia & Hpass); try reflexivity.
  split; [exact Hstart|].
  split; [by apply Hcontacts|].
  split; [by apply Hmedia|].
  apply Hpass; done.
Defined.

End Tracking.

(** ** Registration *)

Section Registration.
Import Index.

Lemma registrationId_truthy (env : Env) (st : AsyncStorage) :
  registrationId env st ≠ "".
Proof.
  unfold registrationId, getItem. destruct (st !! "device_id") as [s|]; simpl.
  - destruct (String.eqb_spec s ""); simpl; [|done].
    unfold newDeviceId. by simpl.
  - unfold newDeviceId. by simpl.
Qed.

Lemma registrationId_stored (env : Env) (st : AsyncStorage) (d : string) :
  st !! "device_id" = Some d → d ≠ "" → registrationId env st = d.
Proof.
  intros Hd Hne. unfold registrationId, getItem. rewrite Hd.
  by rewrite truthy_string_Some.
Qed.

Ltac register_unfold Hmode Hname Hparent :=
  unfold handleRegister; unfold bind at 1; unfold getState; rewrite Hmode;
  rewrite (truthy_string_Some _ Hname); cbn [negb];
  let Hvalid := fresh "Hvalid" in
  assert (Hvalid : ∀ mode w,
            (mode = child → JS.trim (parentDeviceId (ui w)) ≠ "") →
            isChild mode
            && negb (JS.truthy_string (Some (JS.trim (parentDeviceId (ui w))))) = false)
    by (intros [] ? Hp; [done|by rewrite (truthy_string_Some _ (Hp eq_refl))]);
  rewrite (Hvalid _ _ Hparent); clear Hvalid;
  unfold registration, registerUrl, registrationId, setRegistering, getItem, setItem in *;
  async_unfold.

Lemma handleRegister_failed (env : Env) (w : World State) (mode : Mode) :
  selectedMode (ui w) = Some mode →
  JS.trim (deviceName (ui w)) ≠ "" →
  (mode = child → JS.trim (parentDeviceId (ui w)) ≠ "") →
  fetch env (registerUrl env) (registration env w mode) ≠ Resolved true →
  ∃ evs,
    handleRegister env w
    = (Resolved tt,
       mkWorld (<["device_id" := registrationId env (storage w)]> (storage w))
         (tasks w)
         (trace w ++ HttpPost (registerUrl env) (registration env w mode) :: evs)
         (mkState (deviceName (ui w)) (parentDeviceId (ui w)) (selectedMode (ui w))
            (loading (ui w)) false))
    ∧ posts evs = [].
Proof.
  intros Hmode Hname Hparent Hfail.
  register_unfold Hmode Hname Hparent.
  destruct (storage w !! "device_id") as [s|] eqn:Hs; cbn in *.
  - destruct (String.eqb_spec s "") as [->|Hne]; cbn in *;
      rewrite ?(insert_id (storage w) "device_id" _ Hs);
      (destruct (fetch env _ _) as [[]|e]; [done|..]; cbn;
       rewrite <- ?app_assoc, ?Hmode; cbn [app];
       eexists; split; reflexivity).
  - destruct (fetch env _ _) as [[]|e]; [done|..]; cbn;
      rewrite <- ?app_assoc, ?Hmode; cbn [app];
      eexists; split; reflexivity.
Qed.

Lemma handleRegister_succeeded (env : Env) (w : World State) (mode : Mode) :
  selectedMode (ui w) = Some mode →
  JS.trim (deviceName (ui w)) ≠ "" →
  (mode = child → JS.trim (parentDeviceId (ui w)) ≠ "") →
  fetch env (registerUrl env) (registration env w mode) = Resolved true →
  handleRegister env w
  = (Resolved tt,
     mkWorld
       ((if isChild mode
         then <["parent_device_id" := JS.trim (parentDeviceId (ui w))]>
         else λ st, st)
          (<["device_name" := deviceName (ui w)]>
             (<["device_mode" := modeString mode]>
                (<["device_id" := registrationId env (storage w)]> (storage w)))))
       (tasks w)
       (trace w ++ [HttpPost (registerUrl env) (registration env w mode);
                    RouterReplace (if isChild mode then "/child/tracking"
                                   else "/parent/dashboard")])
       (mkState (deviceName (ui w)) (parentDeviceId (ui w)) (selectedMode (ui w))
          (loading (ui w)) false)).
Proof.
  intros Hmode Hname Hparent Hok.
  register_unfold Hmode Hname Hparent.
  destruct (storage w !! "device_id") as [s|] eqn:Hs; cbn in *.
  - destruct (String.eqb_spec s "") as [->|Hne]; cbn in *;
      rewrite ?(insert_id (storage w) "device_id" _ Hs);
      rewrite Hok; cbn; destruct mode; cbn;
      by rewrite <- ?app_assoc, ?Hmode.
  - rewrite Hok; cbn; destruct mode; cbn;
      by rewrite <- ?app_assoc, ?Hmode.
Qed.

Lemma handleRegister_request (env : Env) (w : World State) (mode : Mode) :
  selectedMode (ui w) = Some mode →
  JS.trim (deviceName (ui w)) ≠ "" →
  (mode = child → JS.trim (parentDeviceId (ui w)) ≠ "") →
  (handleRegister env w).1 = Resolved tt
  ∧ posts (added (handleRegister env) w) = [(registerUrl env, registration env w mode)]
  ∧ storage (handleRegister env w).2 !! "device_id"
    = Some (registrationId env (storage w))
  ∧ ui (handleRegister env w).2
    = mkState (deviceName (ui w)) (parentDeviceId (ui w)) (selectedMode (ui w))
        (loading (ui w)) false.
Proof.
  intros Hmode Hname Hparent. unfold added.
  destruct (fetch env (registerUrl env) (registration env w mode)) as [[]|e] eqn:Hf.
  - rewrite (handleRegister_succeeded env w mode) by done. cbn [fst snd trace storage ui].
    rewrite drop_app_length. split; [done|]. split; [done|]. split; [|done].
    destruct mode; cbn [isChild]; by simplify_map_eq.
  - destruct (handleRegister_failed env w mode) as (evs & -> & Hevs);
      [done..|by rewrite Hf|].
    cbn [fst snd trace storage ui]. rewrite drop_app_length, posts_cons, Hevs.
    by simplify_map_eq.
  - destruct (handleRegister_failed env w mode) as (evs & -> & Hevs);
      [done..|by rewrite Hf|].
    cbn [fst snd trace storage ui]. rewrite drop_app_length, posts_cons, Hevs.
    by simplify_map_eq.
Qed.

(** C5: a registration that passes the form checks sends one request
    carrying the device identifier - the stored one, or a new one that is
    stored before the request.  When the backend accepts it, role, name and
    (for a child) parent identifier are written to the store.  When the
    request fails - it is refused or cannot be made - role, name and parent
    identifier in the store are what they were, the device identifier stays
    stored, and a further attempt sends that same identifier. *)
Theorem registration_commits_only_on_success
    (env : Env) (w : World State) (mode : Mode) :
  selectedMode (ui w) = Some mode →
  JS.trim (deviceName (ui w)) ≠ "" →
  (mode = child → JS.trim (parentDeviceId (ui w)) ≠ "") →
  let d := registrationId env (storage w) in
  let request := registration env w mode in
  let w' := (handleRegister env w).2 in
  (∃ body,
     request = Register body ∧ reg_device_id body = d
     ∧ posts (added (handleRegister env) w) = [(registerUrl env, request)])
  ∧ storage w' !! "device_id" = Some d
  ∧ (fetch env (registerUrl env) request = Resolved true →
     storage w' !! "device_mode" = Some (modeString mode)
     ∧ storage w' !! "device_name" = Some (deviceName (ui w))
     ∧ (mode = child →
        storage w' !! "parent_device_id" = Some (JS.trim (parentDeviceId (ui w)))))
  ∧ (fetch env (registerUrl env) request ≠ Resolved true →
     storage w' !! "device_mode" = storage w !! "device_mode"
     ∧ storage w' !! "device_name" = storage w !! "device_name"
     ∧ storage w' !! "parent_device_id" = storage w !! "parent_device_id"
     ∧ ∀ env2,
         (∃ body,
            posts (added (handleRegister env2) w') = [(registerUrl env2, Register body)]
            ∧ reg_device_id body = d)
         ∧ storage (handleRegister env2 w').2 !! "device_id" = Some d).
Proof.
  intros Hmode Hname Hparent d request w'.
  destruct (handleRegister_request env w mode Hmode Hname Hparent)
    as (_ & Hposts & Hid & Hui).
  split; [by eexists|]. split; [done|]. split.
  - intros Hok. unfold w'. rewrite (handleRegister_succeeded env w mode) by done.
    cbn [snd storage]. destruct mode; cbn [isChild]; by simplify_map_eq.
  - intros Hfail.
    destruct (handleRegister_failed env w mode) as (evs & Hrun & _); [done..|].
    assert (Hst : storage w' = <["device_id" := d]> (storage w))
      by (unfold w'; by rewrite Hrun).
    rewrite Hst. split; [by simplify_map_eq|]. split; [by simplify_map_eq|].
    split; [by simplify_map_eq|].
    intros env2.
    assert (Hd2 : registrationId env2 (storage w') = d).
    { apply registrationId_stored; [done|apply registrationId_truthy]. }
    destruct (handleRegister_request env2 w' mode) as (_ & Hposts2 & Hid2 & _).
    + unfold w'. by rewrite Hui.
    + unfold w'. by rewrite Hui.
    + unfold w'. by rewrite Hui.
    + rewrite Hd2 in Hid2. split; [|done].
      eexists. split; [exact Hposts2|]. exact Hd2.
Qed.

Lemma registration_commits_only_on_success_witness :
  let env := Sample.refusing in
  let w := Sample.setup in
  let d := "device_1700000000_abc123xyz" in
  let w' := (handleRegister env w).2 in
  registrationId env (storage w) = d
  ∧ storage w' !! "device_id" = Some d
  ∧ storage w' !! "device_mode" = None
  ∧ storage w' !! "device_name" = None
  ∧ storage w' !! "parent_device_id" = None
  ∧ (∃ body,
       posts (added (handleRegister Sample.accepting) w')
       = [(registerUrl Sample.accepting, Register body)]
       ∧ reg_device_id body = d)
  ∧ storage (handleRegister Sample.accepting w').2 !! "device_id" = Some d.
Proof.
  intros env w d w'.
  destruct (registration_commits_only_on_success env w child)
    as (_ & Hid & _ & Hfail); [reflexivity|vm_compute; discriminate..|].
  destruct Hfail as (Hmode & Hname & Hparent & Hretry); [discriminate|].
  split; [vm_compute; reflexivity|].
  split; [exact Hid|]. split; [exact Hmode|]. split; [exact Hname|].
  split; [exact Hparent|]. exact (Hretry Sample.accepting).
Defined.

End Registration.

(** ** The gallery *)

Section Gallery.
Import ParentGallery.

Lemma truthy_number_spec (x : option Q) :
  JS.truthy_number x = true ↔ ∃ q, x = Some q ∧ ¬ (q == 0)%Q.
Proof.
  destruct x as [q|]; simpl.
  - rewrite negb_true_iff, <- not_true_iff_false, Qeq_bool_iff. split.
    + intros Hq. by exists q.
    + by intros (q' & [= <-] & Hq).
  - split; [done|]. by intros (q & ? & _).
Qed.

Lemma and_number_truthy (a b : option Q) :
  JS.truthy_number (and_number a b) = true
  ↔ JS.truthy_number a = true ∧ JS.truthy_number b = true.
Proof.
  unfold and_number. destruct (JS.truthy_number a) eqn:Ha.
  - split; [done|]. by intros [_ ?].
  - rewrite Ha. split; [done|]. by intros [? _].
Qed.

Lemma StronglySorted_weaken {A} (R R' : A → A → Prop) (l : list A) :
  (∀ a b, R a b → R' a b) → StronglySorted R l → StronglySorted R' l.
Proof.
  intros HR. induction 1 as [|x l Hl IH Hx]; constructor; [done|].
  eapply Forall_impl; [exact Hx|]. apply HR.
Qed.

Lemma filter_sublist {A} (f : A → bool) (l : list A) : sublist (List.filter f l) l.
Proof.
  induction l as [|x l IH]; simpl; [constructor|].
  destruct (f x); by constructor.
Qed.

Lemma or_number_zero (x : option Q) : (JS.or_number x 0 == default 0 x)%Q.
Proof.
  destruct x as [q|]; simpl; [|done].
  destruct (Qeq_bool q 0) eqn:Hq; [|done].
  apply Qeq_bool_iff in Hq. by rewrite Hq.
Qed.

Section Sort.
Context {A : Type} (compareFn : A → A → Q) (key : A → Q).
Hypothesis compareFn_key : ∀ a b, (compareFn a b == key b - key a)%Q.

Lemma compareFn_before (a b : A) :
  Qle_bool (compareFn a b) 0 = true ↔ before key a b.
Proof.
  rewrite Qle_bool_iff, compareFn_key. unfold before. split; intros; lra.
Qed.

Lemma sort_insert_Permutation (x : A) (l : list A) :
  sort_insert compareFn x l ≡ₚ x :: l.
Proof.
  induction l as [|y l IH]; simpl; [done|].
  destruct (Qle_bool (compareFn x y) 0); [done|].
  rewrite IH. apply Permutation_swap.
Qed.

Lemma Array_sort_Permutation (l : list A) : Array_sort compareFn l ≡ₚ l.
Proof.
  induction l as [|x l IH]; simpl; [done|].
  rewrite sort_insert_Permutation. by constructor.
Qed.

Lemma sort_insert_sorted (x : A) (l : list A) :
  StronglySorted (before key) l → StronglySorted (before key) (sort_insert compareFn x l).
Proof.
  induction 1 as [|y l Hl IH Hy]; simpl; [by repeat constructor|].
  destruct (Qle_bool (compareFn x y) 0) eqn:Hxy.
  - apply compareFn_before in Hxy. constructor; [by constructor|].
    constructor; [done|].
    eapply Forall_impl; [exact Hy|]. unfold before in *. intros z Hz. lra.
  - apply not_true_iff_false in Hxy. rewrite compareFn_before in Hxy.
    constructor; [done|].
    rewrite sort_insert_Permutation. constructor; [|done].
    unfold before in *. lra.
Qed.

Lemma Array_sort_sorted (l : list A) :
  StronglySorted (before key) (Array_sort compareFn l).
Proof.
  induction l as [|x l IH]; simpl; [constructor|]. by apply sort_insert_sorted.
Qed.

End Sort.

(** C10: the location view holds exactly the items of the snapshot whose
    latitude and longitude are both present and different from zero, in the
    order of the snapshot; the date view holds the items of the snapshot
    with the most recent first, an item without creation time counting as
    taken at time 0. *)
Theorem getSortedMedia_views (items : list MediaItem) :
  let byLocation := getSortedMedia {| media := items; sortBy := location |} in
  let byDate := getSortedMedia {| media := items; sortBy := date |} in
  (∀ item, item ∈ byLocation ↔ item ∈ items ∧ geotagged item)
  ∧ sublist byLocation items
  ∧ (∀ item lat lng,
       location_latitude item = Some lat → location_longitude item = Some lng →
       (lat == 0)%Q ∨ (lng == 0)%Q → item ∉ byLocation)
  ∧ byDate ≡ₚ items
  ∧ StronglySorted (λ a b, (timeOf b <= timeOf a)%Q) byDate.
Proof.
  intros byLocation byDate.
  assert (Hin : ∀ item, item ∈ byLocation ↔ item ∈ items ∧ geotagged item).
  { intros item. unfold byLocation, getSortedMedia. simpl.
    rewrite !list_elem_of_In, filter_In, and_number_truthy, !truthy_number_spec.
    unfold geotagged. split.
    - intros (Hitem & (lat & Hlat & ?) & (lng & Hlng & ?)). split; [done|].
      by exists lat, lng.
    - intros (Hitem & lat & lng & Hlat & Hlng & ? & ?). split; [done|].
      split; [by exists lat|by exists lng]. }
  split; [exact Hin|]. split; [apply filter_sublist|]. split.
  - intros item lat lng Hlat Hlng Hzero [_ (lat' & lng' & Hlat' & Hlng' & ? & ?)]%Hin.
    rewrite Hlat in Hlat'. rewrite Hlng in Hlng'.
    injection Hlat' as <-. injection Hlng' as <-. by destruct Hzero.
  - unfold byDate, getSortedMedia. simpl. split.
    + apply Array_sort_Permutation.
    + eapply StronglySorted_weaken;
        [|apply (Array_sort_sorted _ (λ item, JS.or_number (creation_time item) 0));
          by intros a b].
      intros a b. simpl. unfold timeOf. by rewrite <- !or_number_zero.
Qed.

(** The four sample items: the equator photograph and the one without
    coordinates are left out of the location view, which keeps the order of
    the snapshot; the date view puts the undated photograph last. *)
Example gallery_of_samples :
  let items := [Sample.equator; Sample.undated; Sample.paris; Sample.plain] in
  getSortedMedia {| media := items; sortBy := location |}
  = [Sample.undated; Sample.paris]
  ∧ getSortedMedia {| media := items; sortBy := date |}
    = [Sample.plain; Sample.equator; Sample.paris; Sample.undated].
Proof. split; vm_compute; reflexivity. Qed.

End Gallery.

(** * Further properties *)

Lemma bind_resolved {UI A B} (c : Async UI A) (k : A → Async UI B)
    (w : World UI) (a : A) :
  (c w).1 = Resolved a → bind c k w = k a (c w).2.
Proof. unfold bind. destruct (c w) as [[a'|e] w']; simpl; by intros [= ->]. Qed.

(** ** Stopping the tracking *)

Section Stopping.
Import ChildTracking.

Lemma added_app {UI A} (c : Async UI A) (w : World UI) (a : Outcome A)
    (st : AsyncStorage) (ts : gset string) (evs : list Event) (u : UI) :
  c w = (a, mkWorld st ts (trace w ++ evs) u) → added c w = evs.
Proof.
  intros H. unfold added. rewrite H. simpl. by rewrite drop_app_length.
Qed.

Ltac stop_unfold :=
  unfold stopTracking, stopLocationUpdatesAsync, TaskManager_isTaskRegisteredAsync,
    setIsTracking;
  async_unfold.

Lemma stopTracking_unregistered (env : Env) (w : World State) :
  LOCATION_TASK_NAME ∉ tasks w →
  stopTracking env w
  = (Resolved tt,
     mkWorld (storage w) (tasks w)
       (trace w ++ [AlertShown "Tracking Stopped" "Location tracking has been stopped."])
       (mkState (deviceName (ui w)) (locationEnabled (ui w)) (lastSync (ui w)) false)).
Proof.
  intros Hw. stop_unfold. by rewrite bool_decide_eq_false_2.
Qed.

Lemma stopTracking_stopped (env : Env) (w : World State) :
  LOCATION_TASK_NAME ∈ tasks w →
  Location_stopLocationUpdatesAsync env = Resolved tt →
  stopTracking env w
  = (Resolved tt,
     mkWorld (storage w) (tasks w ∖ {[LOCATION_TASK_NAME]})
       (trace w ++ [OsCall (Location_stopLocationUpdates LOCATION_TASK_NAME);
                    AlertShown "Tracking Stopped" "Location tracking has been stopped."])
       (mkState (deviceName (ui w)) (locationEnabled (ui w)) (lastSync (ui w)) false)).
Proof.
  intros Hw Hs. stop_unfold. rewrite bool_decide_eq_true_2 by done. cbn.
  rewrite Hs. cbn. by rewrite <- app_assoc.
Qed.

Lemma stopTracking_refused (env : Env) (w : World State) (e : string) :
  LOCATION_TASK_NAME ∈ tasks w →
  Location_stopLocationUpdatesAsync env = Rejected e →
  stopTracking env w
  = (Resolved tt,
     mkWorld (storage w) (tasks w)
       (trace w ++ [OsCall (Location_stopLocationUpdates LOCATION_TASK_NAME);
                    ConsoleError "Error stopping tracking:" e])
       (ui w)).
Proof.
  intros Hw Hs. stop_unfold. rewrite bool_decide_eq_true_2 by done. cbn.
  rewrite Hs. cbn. by rewrite <- app_assoc.
Qed.

(** X1: [stopTracking] never rejects.  With no task registered it calls
    nothing, shows the alert and clears the tracking flag; with the task
    registered and the scheduler stopping it, the task is gone afterwards. *)
Theorem stopTracking_stops (env : Env) (w : World State) :
  Location_stopLocationUpdatesAsync env = Resolved tt →
  let w' := (stopTracking env w).2 in
  (stopTracking env w).1 = Resolved tt
  ∧ (LOCATION_TASK_NAME ∉ tasks w')
  ∧ isTracking (ui (checkTrackingStatus w').2) = false
  ∧ isTracking (ui w') = false
  ∧ storage w' = storage w
  ∧ alerts (added (stopTracking env) w)
    = [("Tracking Stopped", "Location tracking has been stopped.")]
  ∧ (LOCATION_TASK_NAME ∉ tasks w →
     calls (added (stopTracking env) w) = [] ∧ tasks w' = tasks w).
Proof.
  intros Hs w'.
  destruct (decide (LOCATION_TASK_NAME ∈ tasks w)) as [Hin|Hout].
  - unfold w'. rewrite (added_app _ _ _ _ _ _ _ (stopTracking_stopped env w Hin Hs)).
    rewrite (stopTracking_stopped env w Hin Hs). cbn [fst snd tasks ui storage].
    assert (LOCATION_TASK_NAME ∉ tasks w ∖ {[LOCATION_TASK_NAME]}).
    { rewrite elem_of_difference, elem_of_singleton. by intros [_ []]. }
    repeat split; try done.
    rewrite (proj1 (status_after _)). by apply bool_decide_eq_false_2.
  - unfold w'. rewrite (added_app _ _ _ _ _ _ _ (stopTracking_unregistered env w Hout)).
    rewrite (stopTracking_unregistered env w Hout). cbn [fst snd tasks ui storage].
    repeat split; try done.
    rewrite (proj1 (status_after _)). by apply bool_decide_eq_false_2.
Qed.

Lemma stopTracking_stops_witness :
  let env := Sample.allGranted Sample.backendUp in
  let w' := (stopTracking env Scenario.tracking).2 in
  (stopTracking env Scenario.tracking).1 = Resolved tt
  ∧ (LOCATION_TASK_NAME ∉ tasks w')
  ∧ isTracking (ui (checkTrackingStatus w').2) = false
  ∧ isTracking (ui w') = false
  ∧ storage w' = storage Scenario.tracking
  ∧ alerts (added (stopTracking env) Scenario.tracking)
    = [("Tracking Stopped", "Location tracking has been stopped.")]
  ∧ (LOCATION_TASK_NAME ∉ tasks Scenario.tracking →
     calls (added (stopTracking env) Scenario.tracking) = []
     ∧ tasks w' = tasks Scenario.tracking).
Proof.
  apply (stopTracking_stops (Sample.allGranted Sample.backendUp) Scenario.tracking).
  reflexivity.
Defined.

(** X2: when the scheduler refuses to stop a registered task,
    [stopTracking] still settles normally, but the task stays registered,
    the screen keeps its state (the tracking flag is not cleared), no
    "Tracking Stopped" alert is shown, and the error is only logged. *)
Theorem stopTracking_swallows_refusal (env : Env) (w : World State) (e : string) :
  LOCATION_TASK_NAME ∈ tasks w →
  Location_stopLocationUpdatesAsync env = Rejected e →
  let w' := (stopTracking env w).2 in
  (stopTracking env w).1 = Resolved tt
  ∧ LOCATION_TASK_NAME ∈ tasks w'
  ∧ ui w' = ui w
  ∧ storage w' = storage w
  ∧ alerts (added (stopTracking env) w) = []
  ∧ errors (added (stopTracking env) w) = [("Error stopping tracking:", e)].
Proof.
  intros Hin Hs w'. unfold w'.
  rewrite (added_app _ _ _ _ _ _ _ (stopTracking_refused env w e Hin Hs)).
  by rewrite (stopTracking_refused env w e Hin Hs).
Qed.

Lemma stopTracking_swallows_refusal_witness :
  let w' := (stopTracking Scenario.stuck Scenario.tracking).2 in
  (stopTracking Scenario.stuck Scenario.tracking).1 = Resolved tt
  ∧ LOCATION_TASK_NAME ∈ tasks w'
  ∧ ui w' = ui Scenario.tracking
  ∧ storage w' = storage Scenario.tracking
  ∧ alerts (added (stopTracking Scenario.stuck) Scenario.tracking) = []
  ∧ errors (added (stopTracking Scenario.stuck) Scenario.tracking)
    = [("Error stopping tracking:", "Task not found")].
Proof.
  apply (stopTracking_swallows_refusal Scenario.stuck Scenario.tracking "Task not found").
  - by apply elem_of_singleton.
  - reflexivity.
Defined.

End Stopping.

(** ** Starting, syncing and the background task *)

Section StartAndSync.
Import ChildTracking.

(** X3: from a device that is not tracking, a start that succeeds followed
    by a stop that succeeds leaves the task registry as it was, and both the
    screen and the status check report no tracking. *)
Theorem start_then_stop (env : Env) (w : World State)
    (contactsAnswer mediaAnswer : PermissionStatus) :
  LOCATION_TASK_NAME ∉ tasks w →
  Location_requestForegroundPermissionsAsync env = Resolved granted →
  Location_requestBackgroundPermissionsAsync env = Resolved granted →
  Contacts_requestPermissionsAsync env = Resolved contactsAnswer →
  MediaLibrary_requestPermissionsAsync env = Resolved mediaAnswer →
  Location_startLocationUpdatesAsync env = Resolved tt →
  Location_stopLocationUpdatesAsync env = Resolved tt →
  let started := (startTracking env w).2 in
  let stopped := (stopTracking env started).2 in
  isTracking (ui (checkTrackingStatus started).2) = true
  ∧ tasks stopped = tasks w
  ∧ isTracking (ui stopped) = false
  ∧ isTracking (ui (checkTrackingStatus stopped).2) = false.
Proof.
  intros Hw Hf Hb Hc Hm Hu Hs started stopped.
  destruct (startTracking_started env w contactsAnswer mediaAnswer Hf Hb Hc Hm Hu)
    as (_ & _ & Ht & _).
  assert (Hin : LOCATION_TASK_NAME ∈ tasks started).
  { unfold started. rewrite Ht. apply elem_of_union. left. by apply elem_of_singleton. }
  assert (Hback : tasks stopped = tasks w).
  { unfold stopped. rewrite (stopTracking_stopped env started Hin Hs).
    cbn [snd tasks]. unfold started. rewrite Ht. clear -Hw.
    apply set_eq. intros x.
    rewrite elem_of_difference, elem_of_union, elem_of_singleton.
    split; [by intros [[->|?] ?]|]. intros Hx. split; [by right|]. by intros ->. }
  split; [|split; [done|split]].
  - rewrite (proj1 (status_after _)). by apply bool_decide_eq_true_2.
  - unfold stopped. by rewrite (stopTracking_stopped env started Hin Hs).
  - rewrite (proj1 (status_after _)), Hback. by apply bool_decide_eq_false_2.
Qed.

Lemma start_then_stop_witness :
  let env := Sample.env granted granted denied granted (Resolved tt) Sample.backendUp in
  let started := (startTracking env Sample.paired).2 in
  let stopped := (stopTracking env started).2 in
  isTracking (ui (checkTrackingStatus started).2) = true
  ∧ tasks stopped = tasks Sample.paired
  ∧ isTracking (ui stopped) = false
  ∧ isTracking (ui (checkTrackingStatus stopped).2) = false.
Proof.
  apply (start_then_stop
           (Sample.env granted granted denied granted (Resolved tt) Sample.backendUp)
           Sample.paired denied granted); try reflexivity.
  apply not_elem_of_empty.
Defined.

Ltac permissions_unfold :=
  unfold added, requestPermissions, setLocationEnabled; async_unfold.

Ltac tracking_unfold :=
  unfold startTracking, requestPermissions, startLocationUpdatesAsync,
    setLocationEnabled, setIsTracking;
  async_unfold.

(** X4: [requestPermissions] never rejects.  It yields true exactly when
    both location permissions are granted and the contacts and media
    prompts settle; only then is the location flag of the screen set.  The
    prompts come in the order foreground, background, contacts, media, and
    none is shown after one that ends the function.  Store and task
    registry are not touched. *)
Theorem requestPermissions_result (env : Env) (w : World State) :
  ∃ b,
    (requestPermissions env w).1 = Resolved b
    ∧ (b = true
       ↔ Location_requestForegroundPermissionsAsync env = Resolved granted
         ∧ Location_requestBackgroundPermissionsAsync env = Resolved granted
         ∧ (∃ s, Contacts_requestPermissionsAsync env = Resolved s)
         ∧ (∃ s, MediaLibrary_requestPermissionsAsync env = Resolved s))
    ∧ locationEnabled (ui (requestPermissions env w).2)
      = b || locationEnabled (ui w)
    ∧ calls (added (requestPermissions env) w)
      `prefix_of` [Location_requestForegroundPermissions;
                   Location_requestBackgroundPermissions;
                   Contacts_requestPermissions;
                   MediaLibrary_requestPermissions]
    ∧ (b = true → length (calls (added (requestPermissions env) w)) = 4)
    ∧ storage (requestPermissions env w).2 = storage w
    ∧ tasks (requestPermissions env w).2 = tasks w.
Proof.
  permissions_unfold.
  destruct (Location_requestForegroundPermissionsAsync env) as [[]|]; cbn;
    try (exists false; rewrite <- ?app_assoc, drop_app_length;
         repeat split; try done;
         [by intros ([=] & _)|by eexists]).
  destruct (Location_requestBackgroundPermissionsAsync env) as [[]|]; cbn;
    try (exists false; rewrite <- ?app_assoc, drop_app_length;
         repeat split; try done;
         [by intros (_ & [=] & _)|by eexists]).
  destruct (Contacts_requestPermissionsAsync env) as [[]|]; cbn;
    try (exists false; rewrite <- ?app_assoc, drop_app_length;
         repeat split; try done;
         [by intros (_ & _ & [? [=]] & _)|by eexists]);
    (destruct (MediaLibrary_requestPermissionsAsync env) as [[]|]; cbn;
     [exists true|exists true|exists true|exists false];
     rewrite <- ?app_assoc, drop_app_length;
     repeat split; try done; try (by eexists);
     by intros (_ & _ & _ & [? [=]])).
Qed.

(** X5: with all permissions settled but the scheduler refusing the task,
    [startTracking] settles normally after logging the error and showing
    its failure alert last: no task is registered, the tracking flag is
    untouched, and no synchronisation pass is run - nothing is uploaded. *)
Theorem startTracking_refused_registration
    (env : Env) (w : World State)
    (contactsAnswer mediaAnswer : PermissionStatus) (e : string) :
  Location_requestForegroundPermissionsAsync env = Resolved granted →
  Location_requestBackgroundPermissionsAsync env = Resolved granted →
  Contacts_requestPermissionsAsync env = Resolved contactsAnswer →
  MediaLibrary_requestPermissionsAsync env = Resolved mediaAnswer →
  Location_startLocationUpdatesAsync env = Rejected e →
  let w' := (startTracking env w).2 in
  (startTracking env w).1 = Resolved tt
  ∧ tasks w' = tasks w
  ∧ isTracking (ui w') = isTracking (ui w)
  ∧ lastSync (ui w') = lastSync (ui w)
  ∧ posts (added (startTracking env) w) = []
  ∧ errors (added (startTracking env) w) = [("Error starting tracking:", e)]
  ∧ last (alerts (added (startTracking env) w))
    = Some ("Error", "Failed to start location tracking.").
Proof.
  intros Hf Hb Hc Hm Hu. unfold added. tracking_unfold.
  rewrite Hf; cbn. rewrite Hb; cbn. rewrite Hc; cbn.
  destruct contactsAnswer; cbn; rewrite Hm; cbn;
    destruct mediaAnswer; cbn; rewrite Hu; cbn;
    by rewrite <- ?app_assoc, drop_app_length.
Qed.

Lemma startTracking_refused_registration_witness :
  let env :=
    Sample.env granted granted denied granted (Rejected "Task refused")
      Sample.backendUp in
  let w := Sample.paired in
  let w' := (startTracking env w).2 in
  (startTracking env w).1 = Resolved tt
  ∧ tasks w' = tasks w
  ∧ isTracking (ui w') = isTracking (ui w)
  ∧ lastSync (ui w') = lastSync (ui w)
  ∧ posts (added (startTracking env) w) = []
  ∧ errors (added (startTracking env) w) = [("Error starting tracking:", "Task refused")]
  ∧ last (alerts (added (startTracking env) w))
    = Some ("Error", "Failed to start location tracking.").
Proof.
  apply (startTracking_refused_registration
           (Sample.env granted granted denied granted (Rejected "Task refused")
              Sample.backendUp)
           Sample.paired denied granted "Task refused"); reflexivity.
Defined.

(** X6: a start that succeeds on a device that has an identifier runs one
    synchronisation pass straight away: after the prompts, the registration
    and the "Tracking Started" alert come the events of the three domains,
    so the requests of [startTracking] are those of the three domains in
    order, the prompts send none, and the time of the sync is recorded. *)
Theorem startTracking_runs_initial_sync
    (env : Env) (w : World State) (d : string)
    (contactsAnswer mediaAnswer : PermissionStatus) :
  storage w !! "device_id" = Some d → d ≠ "" →
  Location_requestForegroundPermissionsAsync env = Resolved granted →
  Location_requestBackgroundPermissionsAsync env = Resolved granted →
  Contacts_requestPermissionsAsync env = Resolved contactsAnswer →
  MediaLibrary_requestPermissionsAsync env = Resolved mediaAnswer →
  Location_startLocationUpdatesAsync env = Resolved tt →
  (∃ prompts rest,
     added (startTracking env) w
     = prompts
       ++ [OsCall (Location_startLocationUpdates LOCATION_TASK_NAME);
           AlertShown "Tracking Started"
             "Location tracking is now active in the background."]
       ++ eventsOf (syncContacts env d)
       ++ eventsOf (syncGalleryMetadata env d)
       ++ eventsOf (syncCurrentLocation env d)
       ++ rest
     ∧ posts prompts = [] ∧ posts rest = [])
  ∧ posts (added (startTracking env) w)
    = posts (eventsOf (syncContacts env d))
      ++ posts (eventsOf (syncGalleryMetadata env d))
      ++ posts (eventsOf (syncCurrentLocation env d))
  ∧ lastSync (ui (startTracking env w).2) = Some (Date_now env).
Proof.
  intros Hd Hne Hf Hb Hc Hm Hu.
  assert (Hrun : ∃ prompts,
            startTracking env w
            = (Resolved tt,
               synced env d
                 (mkWorld (storage w) ({[LOCATION_TASK_NAME]} ∪ tasks w)
                    (trace w ++ prompts
                       ++ [OsCall (Location_startLocationUpdates LOCATION_TASK_NAME);
                           AlertShown "Tracking Started"
                             "Location tracking is now active in the background."])
                    (mkState (deviceName (ui w)) true (lastSync (ui w)) true)))
            ∧ posts prompts = []).
  { exists ([OsCall Location_requestForegroundPermissions;
             OsCall Location_requestBackgroundPermissions;
             OsCall Contacts_requestPermissions]
            ++ (if isGranted contactsAnswer then []
                else [AlertShown "Permission Denied" "Contacts permission is required."])
            ++ [OsCall MediaLibrary_requestPermissions]
            ++ (if isGranted mediaAnswer then []
                else [AlertShown "Permission Denied"
                        "Media library permission is required."])).
    tracking_unfold. rewrite Hf; cbn. rewrite Hb; cbn. rewrite Hc; cbn.
    destruct contactsAnswer; cbn; rewrite Hm; cbn;
      destruct mediaAnswer; cbn; rewrite Hu; cbn;
      match goal with
      | |- context [syncAllData env ?w'] =>
          rewrite (syncAllData_run env d w' Hd Hne)
      end;
      rewrite <- ?app_assoc; cbn [app]; by split. }
  destruct Hrun as (prompts & Hrun & Hprompts).
  assert (Hadded :
    added (startTracking env) w
    = prompts
      ++ [OsCall (Location_startLocationUpdates LOCATION_TASK_NAME);
          AlertShown "Tracking Started"
            "Location tracking is now active in the background."]
      ++ eventsOf (syncContacts env d)
      ++ eventsOf (syncGalleryMetadata env d)
      ++ eventsOf (syncCurrentLocation env d)
      ++ [AlertShown "Success" "All data synced successfully!"]).
  { unfold added. rewrite Hrun. unfold synced. cbn [snd trace].
    by rewrite <- !app_assoc, drop_app_length. }
  split; [|split].
  - eexists _, _. split; [exact Hadded|]. by split.
  - rewrite Hadded, !posts_app, Hprompts. cbn. by rewrite app_nil_r.
  - by rewrite Hrun.
Qed.

Lemma startTracking_runs_initial_sync_witness :
  let env := Sample.allGranted Sample.contactsDown in
  let w := Sample.paired in
  let d := Sample.deviceId in
  (∃ prompts rest,
     added (startTracking env) w
     = prompts
       ++ [OsCall (Location_startLocationUpdates LOCATION_TASK_NAME);
           AlertShown "Tracking Started"
             "Location tracking is now active in the background."]
       ++ eventsOf (syncContacts env d)
       ++ eventsOf (syncGalleryMetadata env d)
       ++ eventsOf (syncCurrentLocation env d)
       ++ rest
     ∧ posts prompts = [] ∧ posts rest = [])
  ∧ posts (added (startTracking env) w)
    = posts (eventsOf (syncContacts env d))
      ++ posts (eventsOf (syncGalleryMetadata env d))
      ++ posts (eventsOf (syncCurrentLocation env d))
  ∧ lastSync (ui (startTracking env w).2) = Some (Date_now env).
Proof.
  apply (startTracking_runs_initial_sync
           (Sample.allGranted Sample.contactsDown) Sample.paired Sample.deviceId
           granted granted); try reflexivity.
  discriminate.
Defined.

End StartAndSync.

(** ** The background task and the remaining domains *)

Section Background.
Import ChildTracking.

Ltac task_unfold :=
  unfold added, backgroundLocationTask; async_unfold; unfold getItem.

(** X7: handed a batch of fixes on a device that has an identifier, the
    background task sends exactly one location sample, built from the first
    fix and the stored identifier; the other fixes of the batch are
    dropped.  It settles normally even when the request fails, which is
    only logged, and touches neither store, task registry nor screen. *)
Theorem backgroundLocationTask_uploads_first_fix
    (env : Env) (w : World State) (d : string)
    (first : LocationObject) (others : list LocationObject) :
  storage w !! "device_id" = Some d → d ≠ "" →
  let body := {| data := Some (first :: others); error := None |} in
  let request := LocationSample d (coords first) in
  (backgroundLocationTask env body w).1 = Resolved tt
  ∧ posts (added (backgroundLocationTask env body) w) = [(locationUrl env, request)]
  ∧ errors (added (backgroundLocationTask env body) w)
    = match axios_post env (locationUrl env) request with
      | Resolved _ => []
      | Rejected e => [("Error sending background location:", e)]
      end
  ∧ storage (backgroundLocationTask env body w).2 = storage w
  ∧ tasks (backgroundLocationTask env body w).2 = tasks w
  ∧ ui (backgroundLocationTask env body w).2 = ui w.
Proof.
  intros Hd Hne body request. unfold body, request, locationUrl. task_unfold.
  rewrite Hd, (truthy_string_Some d Hne). cbn.
  destruct (axios_post env _ _); cbn; by rewrite <- ?app_assoc, drop_app_length.
Qed.

Lemma backgroundLocationTask_uploads_first_fix_witness :
  let env := Sample.allGranted Sample.backendUp in
  let w := Sample.paired in
  let other := {| coords := {| latitude := 0; longitude := 0; accuracy := None;
                               speed := None; heading := None |} |} in
  let body := {| data := Some [Sample.position; other]; error := None |} in
  let request := LocationSample Sample.deviceId (coords Sample.position) in
  (backgroundLocationTask env body w).1 = Resolved tt
  ∧ posts (added (backgroundLocationTask env body) w) = [(locationUrl env, request)]
  ∧ errors (added (backgroundLocationTask env body) w)
    = match axios_post env (locationUrl env) request with
      | Resolved _ => []
      | Rejected e => [("Error sending background location:", e)]
      end
  ∧ storage (backgroundLocationTask env body w).2 = storage w
  ∧ tasks (backgroundLocationTask env body w).2 = tasks w
  ∧ ui (backgroundLocationTask env body w).2 = ui w.
Proof.
  intros env w other.
  apply (backgroundLocationTask_uploads_first_fix env w Sample.deviceId
           Sample.position [other]).
  - reflexivity.
  - discriminate.
Defined.

(** X8: the background task never rejects and never uploads when it is
    handed an error (even together with fixes), no data, or an empty batch
    of fixes.  An error is logged under its own message; an empty batch on
    a device with an identifier ends in the handler's catch, logged as a
    failure to send; no data at all leaves no trace. *)
Theorem backgroundLocationTask_without_fix (env : Env) (w : World State) :
  (∀ fixes e,
     let body := {| data := fixes; error := Some e |} in
     (backgroundLocationTask env body w).1 = Resolved tt
     ∧ added (backgroundLocationTask env body) w
       = [ConsoleError "Background location error:" e])
  ∧ backgroundLocationTask env {| data := None; error := None |} w = (Resolved tt, w)
  ∧ (let body := {| data := Some []; error := None |} in
     (backgroundLocationTask env body w).1 = Resolved tt
     ∧ posts (added (backgroundLocationTask env body) w) = []
     ∧ (JS.truthy_string (storage w !! "device_id") = true →
        ∃ e, added (backgroundLocationTask env body) w
             = [ConsoleError "Error sending background location:" e])).
Proof.
  split; [|split].
  - intros fixes e. task_unfold. by rewrite drop_app_length.
  - done.
  - task_unfold.
    destruct (JS.truthy_string (storage w !! "device_id")) eqn:Hd; cbn.
    + rewrite drop_app_length. split; [done|]. split; [done|]. by eexists.
    + by rewrite drop_all.
Qed.

(** X9: with the media permission granted, [syncGalleryMetadata] issues
    exactly one request, to the media batch endpoint, with one record for
    each asset the library returned, in the library's order; each record
    copies identifier, file name, type, times, size and duration, and
    carries the asset's geotag exactly when the asset has one. *)
Theorem syncGalleryMetadata_uploads_one_batch
    (env : Env) (w : World State) (d : string) (assets : list Asset) :
  MediaLibrary_getPermissionsAsync env = Resolved granted →
  MediaLibrary_getAssetsAsync env = Resolved assets →
  ∃ records,
    posts (added (syncGalleryMetadata env d) w)
    = [(BACKEND_URL env +:+ "/api/media/batch", MediaBatch d records)]
    ∧ length records = length assets
    ∧ ∀ (i : nat) (asset : Asset),
        assets !! i = Some asset →
        ∃ record,
          records !! i = Some record
          ∧ media_id record = asset_id asset
          ∧ filename record = asset_filename asset
          ∧ mediaType record = asset_mediaType asset
          ∧ creationTime record = asset_creationTime asset
          ∧ modificationTime record = asset_modificationTime asset
          ∧ width record = asset_width asset
          ∧ height record = asset_height asset
          ∧ duration record = asset_duration asset
          ∧ location record = asset_location asset.
Proof.
  intros Hp Ha. exists (map toMediaRecord assets).
  rewrite (added_extend _ _ _ _ (syncGalleryMetadata_run env d w)).
  rewrite (syncGalleryMetadata_uploaded env d assets Hp Ha).
  split; [by destruct (axios_post env _ _)|].
  split; [apply length_map|].
  intros i asset Hi. exists (toMediaRecord asset).
  split; [by rewrite list_lookup_fmap, Hi|].
  repeat split. simpl. by destruct (asset_location asset) as [[]|].
Qed.

Lemma syncGalleryMetadata_uploads_one_batch_witness :
  let env := Sample.allGranted Sample.backendUp in
  let d := Sample.deviceId in
  let assets := [Sample.holiday] in
  ∃ records,
    posts (added (syncGalleryMetadata env d) Sample.paired)
    = [(BACKEND_URL env +:+ "/api/media/batch", MediaBatch d records)]
    ∧ length records = length assets
    ∧ ∀ (i : nat) (asset : Asset),
        assets !! i = Some asset →
        ∃ record,
          records !! i = Some record
          ∧ media_id record = asset_id asset
          ∧ filename record = asset_filename asset
          ∧ mediaType record = asset_mediaType asset
          ∧ creationTime record = asset_creationTime asset
          ∧ modificationTime record = asset_modificationTime asset
          ∧ width record = asset_width asset
          ∧ height record = asset_height asset
          ∧ duration record = asset_duration asset
          ∧ location record = asset_location asset.
Proof.
  apply (syncGalleryMetadata_uploads_one_batch
           (Sample.allGranted Sample.backendUp) Sample.paired Sample.deviceId
           [Sample.holiday]); reflexivity.
Defined.

(** X10: [syncCurrentLocation] never rejects.  When the position provider
    fails, nothing is sent and the failure is logged once; when it delivers
    a fix, exactly one sample with the coordinates of that fix and the
    given identifier is sent. *)
Theorem syncCurrentLocation_one_sample_or_none
    (env : Env) (w : World State) (d : string) :
  (syncCurrentLocation env d w).1 = Resolved tt
  ∧ posts (added (syncCurrentLocation env d) w)
    = match Location_getCurrentPositionAsync env with
      | Resolved fix_ => [(locationUrl env, LocationSample d (coords fix_))]
      | Rejected _ => []
      end
  ∧ (∀ e, Location_getCurrentPositionAsync env = Rejected e →
          added (syncCurrentLocation env d) w
          = [OsCall Location_getCurrentPosition;
             ConsoleError "Error syncing location:" e])
  ∧ length (errors (added (syncCurrentLocation env d) w)) ≤ 1.
Proof.
  rewrite (added_extend _ _ _ _ (syncCurrentLocation_run env d w)).
  rewrite syncCurrentLocation_run.
  split; [done|].
  destruct (Location_getCurrentPositionAsync env) as [fix_|e] eqn:Hfix.
  - rewrite (syncCurrentLocation_uploaded env d fix_ Hfix).
    split; [by destruct (axios_post env _ _)|]. split; [done|].
    destruct (axios_post env _ _); cbn; lia.
  - assert (Hev : eventsOf (syncCurrentLocation env d)
                  = [OsCall Location_getCurrentPosition;
                     ConsoleError "Error syncing location:" e]).
    { unfold eventsOf, syncCurrentLocation. async_unfold. by rewrite Hfix. }
    rewrite Hev. split; [done|]. split; [by intros ? [= ->]|]. cbn. lia.
Qed.

End Background.

(** ** Logging out of the child screen *)

Section Logout.
Import ChildTracking ChildSession.




End Logout.

(** ** The set-up form and the next launch *)

Section Setup.
Import Index Launch.

(** X12: a form that is not filled in - no mode chosen, a blank device
    name, or child mode with a blank parent identifier - gets one error
    alert and nothing else: no identifier is generated, no request is sent,
    and store and screen stay as they were. *)
Theorem handleRegister_rejects_incomplete_form (env : Env) (w : World State) :
  selectedMode (ui w) = None
  ∨ JS.trim (deviceName (ui w)) = ""
  ∨ (selectedMode (ui w) = Some child ∧ JS.trim (parentDeviceId (ui w)) = "") →
  ∃ message,
    handleRegister env w
    = (Resolved tt,
       mkWorld (storage w) (tasks w) (trace w ++ [AlertShown "Error" message]) (ui w))
    ∧ posts (added (handleRegister env) w) = [].
Proof.
  intros Hform.
  assert (Hrun : ∃ message,
            handleRegister env w
            = (Resolved tt,
               mkWorld (storage w) (tasks w) (trace w ++ [AlertShown "Error" message])
                 (ui w))).
  { unfold handleRegister. unfold bind at 1. unfold getState.
    destruct (selectedMode (ui w)) as [mode|] eqn:Hmode; [|by eexists].
    destruct (String.eqb_spec (JS.trim (deviceName (ui w))) "") as [Hname|Hname].
    - simpl JS.truthy_string. rewrite Hname. by eexists.
    - destruct Hform as [?|[?|[[= ->] Hparent]]]; [done..|].
      rewrite (truthy_string_Some _ Hname).
      simpl JS.truthy_string. rewrite Hparent. by eexists. }
  destruct Hrun as [message Hrun]. exists message. split; [done|].
  by rewrite (added_app _ _ _ _ _ _ _ Hrun).
Qed.

Lemma handleRegister_rejects_incomplete_form_witness :
  let w :=
    mkWorld (∅ : AsyncStorage) ∅ [] (mkState "Pixel" "   " (Some child) false false) in
  ∃ message,
    handleRegister Sample.accepting w
    = (Resolved tt,
       mkWorld (storage w) (tasks w) (trace w ++ [AlertShown "Error" message]) (ui w))
    ∧ posts (added (handleRegister Sample.accepting) w) = [].
Proof.
  intros w. apply (handleRegister_rejects_incomplete_form Sample.accepting w).
  right. right. split; reflexivity.
Defined.

Lemma checkExistingSetup_run (w : World State) :
  checkExistingSetup w
  = (Resolved tt,
     mkWorld (storage w) (tasks w)
       (trace w
          ++ (if JS.truthy_string (storage w !! "device_mode")
                 && JS.truthy_string (storage w !! "device_id")
              then [RouterReplace
                      (if String.eqb (default "" (storage w !! "device_mode")) "parent"
                       then "/parent/dashboard" else "/child/tracking")]
              else []))
       (mkState (deviceName (ui w)) (parentDeviceId (ui w)) (selectedMode (ui w))
          false (registering (ui w)))).
Proof.
  unfold checkExistingSetup, setLoading. async_unfold. unfold getItem.
  destruct (JS.truthy_string (storage w !! "device_mode")
            && JS.truthy_string (storage w !! "device_id")); cbn.
  - by destruct (String.eqb _ "parent").
  - by rewrite app_nil_r.
Qed.

(** X13: after a registration that the backend accepted, the check at the
    next launch navigates to the screen the registration navigated to -
    the dashboard for a parent, the tracking screen for a child.  After a
    failed first registration the check does not navigate (the set-up form
    is shown again), although the device identifier is already stored.  In
    both cases the check ends the loading state. *)
Theorem launch_follows_registration (env : Env) (w : World State) (mode : Mode) :
  selectedMode (ui w) = Some mode →
  JS.trim (deviceName (ui w)) ≠ "" →
  (mode = child → JS.trim (parentDeviceId (ui w)) ≠ "") →
  let registered := (handleRegister env w).2 in
  let route := if isChild mode then "/child/tracking" else "/parent/dashboard" in
  loading (ui (checkExistingSetup registered).2) = false
  ∧ (fetch env (registerUrl env) (registration env w mode) = Resolved true →
     last (trace registered) = Some (RouterReplace route)
     ∧ added checkExistingSetup registered = [RouterReplace route])
  ∧ (fetch env (registerUrl env) (registration env w mode) ≠ Resolved true →
     storage w !! "device_mode" = None →
     is_Some (storage registered !! "device_id")
     ∧ added checkExistingSetup registered = []).
Proof.
  intros Hmode Hname Hparent registered route.
  split; [by rewrite checkExistingSetup_run|]. split.
  - intros Hok. unfold registered, added.
    rewrite checkExistingSetup_run.
    rewrite (handleRegister_succeeded env w mode Hmode Hname Hparent Hok).
    cbn [snd trace storage].
    split.
    { by rewrite last_app_cons. }
    rewrite drop_app_length. unfold route.
    assert (Hid : registrationId env (storage w) ≠ "") by apply registrationId_truthy.
    destruct mode; cbn [isChild]; simplify_map_eq;
      by destruct (String.eqb_spec (registrationId env (storage w)) "").
  - intros Hfail Hnone. unfold registered, added.
    rewrite checkExistingSetup_run.
    destruct (handleRegister_failed env w mode Hmode Hname Hparent Hfail)
      as (evs & -> & _).
    cbn [snd trace storage]. rewrite drop_app_length.
    split; [by simplify_map_eq|]. by simplify_map_eq.
Qed.

Lemma launch_follows_registration_witness :
  let registered := (handleRegister Sample.accepting Sample.setup).2 in
  loading (ui (checkExistingSetup registered).2) = false
  ∧ last (trace registered) = Some (RouterReplace "/child/tracking")
  ∧ added checkExistingSetup registered = [RouterReplace "/child/tracking"].
Proof.
  intros registered.
  destruct (launch_follows_registration Sample.accepting Sample.setup child)
    as (Hloading & Hok & _); [reflexivity|vm_compute; discriminate..|].
  split; [exact Hloading|]. by apply Hok.
Defined.

(** X14: in parent mode the parent identifier typed into the form is
    ignored: the request carries no parent identifier, and whatever the
    backend answers the stored parent identifier is left as it was - it is
    neither written nor removed. *)
Theorem parent_registration_ignores_parent_id (env : Env) (w : World State) :
  selectedMode (ui w) = Some parent →
  JS.trim (deviceName (ui w)) ≠ "" →
  (∃ body,
     posts (added (handleRegister env) w) = [(registerUrl env, Register body)]
     ∧ reg_mode body = parent
     ∧ reg_parent_device_id body = None)
  ∧ storage (handleRegister env w).2 !! "parent_device_id"
    = storage w !! "parent_device_id".
Proof.
  intros Hmode Hname.
  assert (Hparent : parent = child → JS.trim (parentDeviceId (ui w)) ≠ "") by done.
  destruct (handleRegister_request env w parent Hmode Hname Hparent)
    as (_ & Hposts & _).
  split; [by eexists|].
  destruct (fetch env (registerUrl env) (registration env w parent)) as [[]|e] eqn:Hf.
  - rewrite (handleRegister_succeeded env w parent Hmode Hname Hparent Hf).
    cbn [snd storage isChild]. by simplify_map_eq.
  - destruct (handleRegister_failed env w parent Hmode Hname Hparent) as (evs & -> & _);
      [by rewrite Hf|]. cbn [snd storage]. by simplify_map_eq.
  - destruct (handleRegister_failed env w parent Hmode Hname Hparent) as (evs & -> & _);
      [by rewrite Hf|]. cbn [snd storage]. by simplify_map_eq.
Qed.

Lemma parent_registration_ignores_parent_id_witness :
  let w :=
    mkWorld ({[ "parent_device_id" := "device_1600000000_parent001" ]} : AsyncStorage)
      ∅ [] (mkState "Tablet" "device_1500000000_typed0000" (Some parent) false false) in
  (∃ body,
     posts (added (handleRegister Sample.accepting) w)
     = [(registerUrl Sample.accepting, Register body)]
     ∧ reg_mode body = parent
     ∧ reg_parent_device_id body = None)
  ∧ storage (handleRegister Sample.accepting w).2 !! "parent_device_id"
    = Some "device_1600000000_parent001".
Proof.
  intros w.
  destruct (parent_registration_ignores_parent_id Sample.accepting w)
    as (Hrequest & Hstore); [reflexivity|vm_compute; discriminate|].
  split; [exact Hrequest|]. rewrite Hstore. reflexivity.
Defined.

End Setup.

(** ** The pairing code of an arbitrary stored identifier *)

Section PairingCode.
Import PairDevice.





End PairingCode.

(** ** Loading the gallery *)

Section GalleryLoading.
Import GalleryData.

Ltac gallery_unfold :=
  unfold loadData, loadMedia, setChildren, setSelectedChild, setMedia,
    setRefreshing, setLoading, setScreen, axios_get;
  async_unfold; unfold getItem.

(** X16: with the parent's identifier stored and the children request
    answered, [loadData] sends that one request, takes the answer as the
    list of children and ends the loading state.  A child that is already
    selected stays selected - also when it is no longer among the children
    returned; without a selection the first child returned is selected, and
    none if the list is empty.  The media shown are not touched. *)
Theorem loadData_selects_first_child_once
    (env : Env) (w : World (Browsing State)) (d : string) (cs : list ChildDevice) :
  storage w !! "device_id" = Some d → d ≠ "" →
  getChildren env (childrenUrl (BACKEND_URL env) d) = Resolved cs →
  let w' := (loadData env (screen (ui w)) w).2 in
  (loadData env (screen (ui w)) w).1 = Resolved tt
  ∧ fetched (ui w') = fetched (ui w) ++ [childrenUrl (BACKEND_URL env) d]
  ∧ children (screen (ui w')) = cs
  ∧ loading (screen (ui w')) = false
  ∧ media (screen (ui w')) = media (screen (ui w))
  ∧ selectedChild (screen (ui w'))
    = match selectedChild (screen (ui w)) with
      | Some c => Some c
      | None => head cs
      end.
Proof.
  intros Hd Hne Hcs. gallery_unfold.
  rewrite Hd, (truthy_string_Some d Hne). cbn. rewrite Hcs. cbn.
  destruct (selectedChild (screen (ui w))) as [c|] eqn:Hsel.
  - rewrite bool_decide_eq_true_2 by by eexists.
    rewrite andb_false_r. by cbn.
  - rewrite bool_decide_eq_false_2 by by intros [? [=]].
    destruct cs as [|c cs]; by cbn.
Qed.

Lemma loadData_selects_first_child_once_witness :
  let env := Scenario.galleryBackend in
  let w := Scenario.gallery (Some Scenario.gone) in
  let w' := (loadData env (screen (ui w)) w).2 in
  (loadData env (screen (ui w)) w).1 = Resolved tt
  ∧ fetched (ui w')
    = fetched (ui w) ++ [childrenUrl (BACKEND_URL env) "device_1700000000_abc123xyz"]
  ∧ children (screen (ui w')) = [Scenario.anna; Scenario.ben]
  ∧ loading (screen (ui w')) = false
  ∧ media (screen (ui w')) = media (screen (ui w))
  ∧ selectedChild (screen (ui w')) = Some Scenario.gone.
Proof.
  apply (loadData_selects_first_child_once Scenario.galleryBackend
           (Scenario.gallery (Some Scenario.gone)) "device_1700000000_abc123xyz"
           [Scenario.anna; Scenario.ben]).
  - reflexivity.
  - discriminate.
  - reflexivity.
Defined.

(** X17: [loadData] never rejects and always ends the loading state.
    Without a stored identifier it sends no request and logs nothing; when
    the children request fails the failure is logged once and no alert is
    shown.  In both cases children, selection and media stay as they
    were. *)
Theorem loadData_without_answer (env : Env) (w : World (Browsing State)) :
  let url := childrenUrl (BACKEND_URL env) (default "" (storage w !! "device_id")) in
  let w' := (loadData env (screen (ui w)) w).2 in
  JS.truthy_string (storage w !! "device_id") = false
  ∨ (∃ e, getChildren env url = Rejected e) →
  (loadData env (screen (ui w)) w).1 = Resolved tt
  ∧ loading (screen (ui w')) = false
  ∧ children (screen (ui w')) = children (screen (ui w))
  ∧ selectedChild (screen (ui w')) = selectedChild (screen (ui w))
  ∧ media (screen (ui w')) = media (screen (ui w))
  ∧ alerts (added (loadData env (screen (ui w))) w) = []
  ∧ (JS.truthy_string (storage w !! "device_id") = false →
     fetched (ui w') = fetched (ui w)
     ∧ added (loadData env (screen (ui w))) w = [])
  ∧ (JS.truthy_string (storage w !! "device_id") = true →
     ∀ e, getChildren env url = Rejected e →
          fetched (ui w') = fetched (ui w) ++ [url]
          ∧ added (loadData env (screen (ui w))) w
            = [ConsoleError "Error loading data:" e]).
Proof.
  intros url w' H. unfold w', url in *. unfold added. gallery_unfold.
  destruct (JS.truthy_string (storage w !! "device_id")) eqn:Hid; cbn.
  - destruct H as [?|[e He]]; [done|]. rewrite He. cbn.
    rewrite drop_app_length.
    do 7 (split; [done|]). intros _ e' [= ->]. by split.
  - rewrite drop_all. do 6 (split; [done|]). by split.
Qed.

Lemma loadData_without_answer_witness :
  let env := Scenario.galleryOffline in
  let w := Scenario.gallery (Some Scenario.anna) in
  let w' := (loadData env (screen (ui w)) w).2 in
  (loadData env (screen (ui w)) w).1 = Resolved tt
  ∧ loading (screen (ui w')) = false
  ∧ children (screen (ui w')) = children (screen (ui w))
  ∧ selectedChild (screen (ui w')) = selectedChild (screen (ui w))
  ∧ media (screen (ui w')) = media (screen (ui w))
  ∧ alerts (added (loadData env (screen (ui w))) w) = []
  ∧ added (loadData env (screen (ui w))) w
    = [ConsoleError "Error loading data:" "Network Error"].
Proof.
  intros env w w'.
  destruct (loadData_without_answer env w)
    as (Hr & Hl & Hc & Hs & Hm & Ha & _ & Hfail); [right; by eexists|].
  repeat (split; [assumption|]).
  by apply (Hfail eq_refl "Network Error").
Defined.

Lemma loadData_frame (env : Env) (render : State) (w : World (Browsing State)) :
  ∃ st,
    (loadData env render w).1 = Resolved tt
    ∧ ui (loadData env render w).2
      = mkBrowsing st
          (fetched (ui w)
             ++ (if JS.truthy_string (storage w !! "device_id")
                 then [childrenUrl (BACKEND_URL env)
                         (default "" (storage w !! "device_id"))]
                 else []))
    ∧ refreshing st = refreshing (screen (ui w))
    ∧ loading st = false
    ∧ storage (loadData env render w).2 = storage w.
Proof.
  gallery_unfold.
  destruct (JS.truthy_string (storage w !! "device_id")); cbn;
    [|rewrite app_nil_r; by eexists].
  destruct (getChildren env _) as [cs|e]; cbn; [|by eexists].
  destruct (_ && _); cbn; by eexists.
Qed.

Lemma loadMedia_frame (env : Env) (c : string) (w : World (Browsing State)) :
  ∃ st,
    (loadMedia env c w).1 = Resolved tt
    ∧ ui (loadMedia env c w).2 = mkBrowsing st (fetched (ui w) ++ [mediaUrl env c])
    ∧ refreshing st = refreshing (screen (ui w))
    ∧ loading st = loading (screen (ui w))
    ∧ selectedChild st = selectedChild (screen (ui w))
    ∧ children st = children (screen (ui w))
    ∧ media st = match getMedia env (mediaUrl env c) with
                 | Resolved m => m
                 | Rejected _ => media (screen (ui w))
                 end.
Proof.
  gallery_unfold. destruct (getMedia env _) as [m|e]; cbn; by eexists.
Qed.

(** X18: a refresh never rejects and leaves the screen neither refreshing
    nor loading, whatever the backend answers.  On a device with an
    identifier it asks for the children and then, only if a child was
    selected when the refresh began, for the media of that child - also
    when the children request failed; a refresh that began without a
    selection asks for no media, even though it may select a child. *)
Theorem onRefresh_requests (env : Env) (w : World (Browsing State)) (d : string) :
  storage w !! "device_id" = Some d → d ≠ "" →
  let w' := (onRefresh env (screen (ui w)) w).2 in
  (onRefresh env (screen (ui w)) w).1 = Resolved tt
  ∧ refreshing (screen (ui w')) = false
  ∧ loading (screen (ui w')) = false
  ∧ fetched (ui w')
    = fetched (ui w)
      ++ [childrenUrl (BACKEND_URL env) d]
      ++ match selectedChild (screen (ui w)) with
         | Some c => [mediaUrl env (device_id c)]
         | None => []
         end.
Proof.
  intros Hd Hne. cbv zeta. unfold onRefresh.
  rewrite (bind_resolved (setRefreshing true) _ w tt) by done.
  set (w1 := (setRefreshing true w).2).
  destruct (loadData_frame env (screen (ui w)) w1) as (st & Hr & Hu & _ & Hl & _).
  rewrite (bind_resolved (loadData env _) _ w1 tt Hr).
  set (w2 := (loadData env (screen (ui w)) w1).2) in *.
  change (storage w1) with (storage w) in Hu. change (fetched (ui w1)) with (fetched (ui w)) in Hu.
  rewrite Hd, (truthy_string_Some d Hne) in Hu. simpl default in Hu.
  destruct (selectedChild (screen (ui w))) as [c|].
  - destruct (loadMedia_frame env (device_id c) w2) as (st' & Hr' & Hu' & _ & Hl' & _).
    rewrite (bind_resolved (loadMedia env _) _ w2 tt Hr').
    unfold setRefreshing at 1 2 3 4, setScreen, setState. cbn [fst snd ui screen fetched
      refreshing loading].
    rewrite Hu', Hu. cbn [screen fetched]. rewrite Hl', Hu. cbn [screen].
    by rewrite Hl, <- app_assoc.
  - rewrite (bind_resolved (ret tt) _ w2 tt) by done.
    unfold setRefreshing at 1 2 3 4, setScreen, setState, ret. cbn [fst snd ui screen fetched
      refreshing loading].
    rewrite Hu. cbn [screen fetched]. by rewrite Hl, app_nil_r.
Qed.

Lemma onRefresh_requests_witness :
  let env := Scenario.galleryOffline in
  let w := Scenario.gallery (Some Scenario.anna) in
  let w' := (onRefresh env (screen (ui w)) w).2 in
  (onRefresh env (screen (ui w)) w).1 = Resolved tt
  ∧ refreshing (screen (ui w')) = false
  ∧ loading (screen (ui w')) = false
  ∧ fetched (ui w')
    = fetched (ui w)
      ++ [childrenUrl (BACKEND_URL env) "device_1700000000_abc123xyz"]
      ++ [mediaUrl env (device_id Scenario.anna)].
Proof.
  apply (onRefresh_requests Scenario.galleryOffline
           (Scenario.gallery (Some Scenario.anna)) "device_1700000000_abc123xyz").
  - reflexivity.
  - discriminate.
Defined.

End GalleryLoading.

(** ** The dashboard *)

Section Dashboard.
Import ParentDashboard.

Ltac dashboard_unfold :=
  unfold added, loadChildLocation, setCurrentLocation, setLocationHistory,
    setScreen, axios_get;
  async_unfold.

(** X19: [loadChildLocation] never rejects and asks for the latest
    location first.  If that request fails, the history is not asked for
    and the screen keeps both its current location and its history.  If it
    succeeds, the answer becomes the current location and the history is
    asked for; should that second request fail, the screen shows the new
    current location beside the history it had before.  A failure is
    logged once. *)
Theorem loadChildLocation_updates_in_two_steps
    (env : Env) (w : World (Browsing State)) (childDeviceId : string) :
  let latest := latestUrl env childDeviceId in
  let history := historyUrl env childDeviceId in
  let w' := (loadChildLocation env childDeviceId w).2 in
  (loadChildLocation env childDeviceId w).1 = Resolved tt
  ∧ selectedChild (screen (ui w')) = selectedChild (screen (ui w))
  ∧ (∀ e, getLatest env latest = Rejected e →
       fetched (ui w') = fetched (ui w) ++ [latest]
       ∧ currentLocation (screen (ui w')) = currentLocation (screen (ui w))
       ∧ locationHistory (screen (ui w')) = locationHistory (screen (ui w))
       ∧ added (loadChildLocation env childDeviceId) w
         = [ConsoleError "Error loading child location:" e])
  ∧ (∀ l, getLatest env latest = Resolved l →
       fetched (ui w') = fetched (ui w) ++ [latest; history]
       ∧ currentLocation (screen (ui w')) = l
       ∧ (∀ h, getHistory env history = Resolved h →
            locationHistory (screen (ui w')) = h
            ∧ added (loadChildLocation env childDeviceId) w = [])
       ∧ (∀ e, getHistory env history = Rejected e →
            locationHistory (screen (ui w')) = locationHistory (screen (ui w))
            ∧ added (loadChildLocation env childDeviceId) w
              = [ConsoleError "Error loading child location:" e])).
Proof.
  cbv zeta. dashboard_unfold.
  destruct (getLatest env _) as [l|e]; cbn.
  - destruct (getHistory env _) as [h|e]; cbn.
    + rewrite drop_all, <- app_assoc. do 2 (split; [done|]).
      split; [done|]. intros ? [= <-]. do 2 (split; [done|]).
      split; [by intros ? [= <-]|done].
    + rewrite drop_app_length, <- app_assoc. do 2 (split; [done|]).
      split; [done|]. intros ? [= <-]. do 2 (split; [done|]).
      split; [done|by intros ? [= <-]].
  - rewrite drop_app_length. do 2 (split; [done|]).
    split; [by intros ? [= <-]|done].
Qed.

Lemma loadChildLocation_updates_in_two_steps_witness :
  let env := Scenario.historyDown in
  let w := Scenario.dashboard (Some Scenario.anna) in
  let w' := (loadChildLocation env (device_id Scenario.anna) w).2 in
  (loadChildLocation env (device_id Scenario.anna) w).1 = Resolved tt
  ∧ currentLocation (screen (ui w')) = Some (Scenario.fix_ 48)
  ∧ locationHistory (screen (ui w')) = [Scenario.fix_ 1; Scenario.fix_ 2]
  ∧ added (loadChildLocation env (device_id Scenario.anna)) w
    = [ConsoleError "Error loading child location:" "timeout"].
Proof.
  intros env w w'.
  destruct (loadChildLocation_updates_in_two_steps env w (device_id Scenario.anna))
    as (Hr & _ & _ & Hlatest).
  destruct (Hlatest (Some (Scenario.fix_ 48)) eq_refl) as (_ & Hcurrent & _ & Hdown).
  destruct (Hdown "timeout" eq_refl) as (Hhistory & Hlog).
  by repeat split.
Defined.



(** X21: when the children request of the dashboard fails, [loadData]
    settles normally, logs the failure and tells the user with one alert;
    children and selection stay as they were and the loading state ends.
    Without a stored identifier it sends nothing and shows nothing. *)
Theorem dashboard_loadData_reports_failure
    (env : Env) (w : World (Browsing State)) :
  let url := childrenUrl (BACKEND_URL env) (default "" (storage w !! "device_id")) in
  let w' := (loadData env (screen (ui w)) w).2 in
  (JS.truthy_string (storage w !! "device_id") = false →
   loadData env (screen (ui w)) w
   = (Resolved tt,
      mkWorld (storage w) (tasks w) (trace w)
        (mkBrowsing
           (mkState (children (screen (ui w))) (selectedChild (screen (ui w)))
              (currentLocation (screen (ui w))) (locationHistory (screen (ui w)))
              (refreshing (screen (ui w))) false)
           (fetched (ui w)))))
  ∧ (JS.truthy_string (storage w !! "device_id") = true →
     ∀ e, getChildren env url = Rejected e →
          (loadData env (screen (ui w)) w).1 = Resolved tt
          ∧ added (loadData env (screen (ui w))) w
            = [ConsoleError "Error loading data:" e;
               AlertShown "Error" "Failed to load children devices."]
          ∧ fetched (ui w') = fetched (ui w) ++ [url]
          ∧ children (screen (ui w')) = children (screen (ui w))
          ∧ selectedChild (screen (ui w')) = selectedChild (screen (ui w))
          ∧ loading (screen (ui w')) = false).
Proof.
  cbv zeta. unfold added, loadData, setChildren, setSelectedChild, setLoading,
    setScreen, axios_get.
  async_unfold. unfold getItem.
  destruct (JS.truthy_string (storage w !! "device_id")); cbn.
  - split; [done|]. intros _ e ->. cbn.
    by rewrite <- app_assoc, drop_app_length.
  - by split.
Qed.

Lemma dashboard_loadData_reports_failure_witness :
  let env :=
    {| BACKEND_URL := "https://backend.example";
       getChildren := λ _, Rejected "Network Error";
       getLatest := λ _, Resolved None;
       getHistory := λ _, Resolved [] |} in
  let w := Scenario.dashboard (Some Scenario.anna) in
  let w' := (loadData env (screen (ui w)) w).2 in
  (loadData env (screen (ui w)) w).1 = Resolved tt
  ∧ added (loadData env (screen (ui w))) w
    = [ConsoleError "Error loading data:" "Network Error";
       AlertShown "Error" "Failed to load children devices."]
  ∧ fetched (ui w')
    = fetched (ui w)
      ++ [childrenUrl (BACKEND_URL env) "device_1700000000_abc123xyz"]
  ∧ children (screen (ui w')) = children (screen (ui w))
  ∧ selectedChild (screen (ui w')) = selectedChild (screen (ui w))
  ∧ loading (screen (ui w')) = false.
Proof.
  intros env w w'.
  destruct (dashboard_loadData_reports_failure env w) as [_ Hfail].
  by apply (Hfail eq_refl "Network Error").
Defined.

End Dashboard.
